(** * innowise_laboratory: profile generator (lecture_2) and
      student grade analyzer (lecture_3)

    A shallow embedding of [src/lecture_2/main.py] and
    [src/lecture_3/main.py], followed by the properties of the two
    programs.

    Data representation.
    - A Python [str] is a sequence of Unicode code points: [list N].
    - A Python [int] is unbounded: [Z].
    - A Python [float] is an IEEE 754 binary64 number: Rocq's primitive
      [float], whose operations are the same correctly rounded ones.
    - A student dictionary [{"name": ..., "grades": ...}] is a record; the
      roster is the list of these records, threaded through the menu
      handlers, which mutate it in place in the source.
    - Console input is the list of the lines still to be read; [input()]
      on an exhausted console raises [EOFError].  Console output is the
      list of the printed messages, one per call of [print].
    - An interrupt from the keyboard is not an input: it only ends the
      loop of lecture_3, with the roster that a console ending at that
      point leaves.

    The builtins of Python that the programs call ([str.isalpha],
    [str.lower], [str.strip], [int], [float], [sum], [max], [min], the
    formats of f-strings) are written out below for ASCII text, plain
    decimal literals and floats; what lies beyond (the Unicode tables,
    the other literals) is a parameter of the development, [PyRuntime],
    so that every theorem holds whatever these tables are. *)

From Stdlib Require Import ZArith NArith Lia List Bool String Ascii.
From Stdlib Require Import Floats Uint63.
Import ListNotations.

Set Implicit Arguments.

(* ================================================================== *)
(** * Python strings *)
(* ================================================================== *)

Definition char := N.
Definition str := list char.

(** A literal of the source (ASCII text). *)
Definition lit (s : string) : str :=
  List.map N_of_ascii (list_ascii_of_string s).

Fixpoint str_eqb (a b : str) : bool :=
  match a, b with
  | [], [] => true
  | x :: a', y :: b' => N.eqb x y && str_eqb a' b'
  | _, _ => false
  end.

Definition is_ascii (c : char) : bool := (c <? 128)%N.
Definition ascii_isupper (c : char) : bool := (65 <=? c)%N && (c <=? 90)%N.
Definition ascii_islower (c : char) : bool := (97 <=? c)%N && (c <=? 122)%N.
Definition ascii_isdigit (c : char) : bool := (48 <=? c)%N && (c <=? 57)%N.
Definition ascii_isspace (c : char) : bool :=
  ((9 <=? c)%N && (c <=? 13)%N) || ((28 <=? c)%N && (c <=? 32)%N).
Definition ascii_lower (c : char) : char :=
  if ascii_isupper c then (c + 32)%N else c.

(** What the embedding takes from the Python runtime rather than from
    the repository: the Unicode tables beyond ASCII and the number
    conversions outside the plain decimal literals.  On ASCII text and
    plain literals every builtin below is written out, so these
    components are consulted only for the remaining inputs. *)
Class PyRuntime := {
  (** [c.isalpha()] for one code point [c >= 128] *)
  unicode_isalpha : char -> bool;
  (** [c.isspace()] for one code point [c >= 128] *)
  unicode_isspace : char -> bool;
  (** [s.lower()] for a string with a code point [>= 128] *)
  unicode_lower : str -> str;
  (** [float(s)] for [s] that is not a plain decimal literal;
      [None] is [ValueError] *)
  float_of_other : str -> option float;
  (** [int(s)] for [s] that is not a plain decimal literal;
      [None] is [ValueError] *)
  int_of_other : str -> option Z;
  (** [str(n)] for an [n] of more than 4300 digits; [None] is the
      [ValueError] of the interpreters that limit the conversion *)
  str_of_big_int : Z -> option str;
  (** [repr(x)] of a float, as [print] and f-strings show it *)
  float_repr : float -> str
}.

Section Strings.
Context {rt : PyRuntime}.

Definition char_isalpha (c : char) : bool :=
  if is_ascii c then ascii_isupper c || ascii_islower c
  else unicode_isalpha c.

Definition char_isspace (c : char) : bool :=
  if is_ascii c then ascii_isspace c else unicode_isspace c.

(** [s.isalpha()]: at least one character and all of them letters. *)
Definition str_isalpha (s : str) : bool :=
  match s with
  | [] => false
  | _ :: _ => forallb char_isalpha s
  end.

(** [s.lower()] *)
Definition str_lower (s : str) : str :=
  if forallb is_ascii s then List.map ascii_lower s else unicode_lower s.

Fixpoint str_lstrip (s : str) : str :=
  match s with
  | [] => []
  | c :: s' => if char_isspace c then str_lstrip s' else s
  end.

(** [s.strip()] *)
Definition str_strip (s : str) : str :=
  rev (str_lstrip (rev (str_lstrip s))).

End Strings.

(** Decimal digits of a non-negative number, most significant first. *)
Fixpoint digits_of_pos_fuel (fuel : nat) (n : Z) (acc : str) : str :=
  match fuel with
  | O => acc
  | S fuel' =>
      let acc' := (Z.to_N (n mod 10) + 48)%N :: acc in
      if (n <? 10)%Z then acc' else digits_of_pos_fuel fuel' (n / 10)%Z acc'
  end.

Definition digits_of_nonneg (n : Z) : str :=
  digits_of_pos_fuel (S (Z.to_nat (Z.log2 n))) n [].

Definition decimal_of_Z (n : Z) : str :=
  if (n <? 0)%Z then 45%N :: digits_of_nonneg (- n) else digits_of_nonneg n.

(** Value of a run of ASCII digits. *)
Definition digits_value (ds : str) : Z :=
  fold_left (fun acc d => (10 * acc + (Z.of_N d - 48))%Z) ds 0%Z.

Definition is_digits (ds : str) : bool :=
  match ds with
  | [] => false
  | _ :: _ => forallb ascii_isdigit ds
  end.

Definition max_str_digits : nat := 4300.

(** The blanks that [int] skips around a literal of ASCII text: those
    of C's [isspace], tab to carriage return and the space.  The
    separators U+001C..U+001F, which [str.strip] removes, are not among
    them: [int("2013\x1f")] raises [ValueError]. *)
Definition c_isspace (c : char) : bool :=
  ((9 <=? c)%N && (c <=? 13)%N) || (c =? 32)%N.

Fixpoint c_lstrip (s : str) : str :=
  match s with
  | [] => []
  | c :: s' => if c_isspace c then c_lstrip s' else s
  end.

Definition c_strip (s : str) : str := rev (c_lstrip (rev (c_lstrip s))).

Section Integers.
Context {rt : PyRuntime}.

(** [int(s)] on a string: the plain literals (an optional sign and at
    most 4300 ASCII digits, with the blanks of [c_isspace] around them
    skipped) are converted here, everything else by the runtime. *)
Definition int_of_str (s : str) : option Z :=
  let t := c_strip s in
  let '(neg, ds) :=
    match t with
    | 45%N :: ds => (true, ds)
    | 43%N :: ds => (false, ds)
    | _ => (false, t)
    end in
  if is_digits ds && (List.length ds <=? max_str_digits)%nat
  then Some (if neg then (- digits_value ds)%Z else digits_value ds)
  else int_of_other s.

(** [str(n)], as an f-string field [{n}] shows it. *)
Definition str_of_int (n : Z) : option str :=
  let ds := digits_of_nonneg (Z.abs n) in
  if (List.length ds <=? max_str_digits)%nat then Some (decimal_of_Z n)
  else str_of_big_int n.

End Integers.

(* ================================================================== *)
(** * lecture_2: the profile generator *)
(* ================================================================== *)

Module Lecture2.

(** [generate_profile(age)] *)
Definition generate_profile (age : Z) : str :=
  if ((0 <=? age) && (age <=? 12))%Z then lit "Child"
  else if ((13 <=? age) && (age <=? 19))%Z then lit "Teenager"
  else if (age >=? 20)%Z then lit "Adult"
  else lit "Unknown".

(** The dictionary [user_profile] built by [main]. *)
Record UserProfile := {
  name : str;
  birth_year : Z;
  age : Z;
  life_stage : str;
  hobbies : list str
}.

Section Main.
Context {rt : PyRuntime}.

(** The [while True] loop of [main]: hobbies are read until a line
    that lowers to "stop"; [None] is the [EOFError] of a console
    that ends before that. *)
Fixpoint read_hobbies (hobbies : list str) (inputs : list str)
  : option (list str) :=
  match inputs with
  | [] => None
  | hobby :: rest =>
      if str_eqb (str_lower hobby) (lit "stop") then Some hobbies
      else read_hobbies (hobbies ++ [hobby]) rest
  end.

(** The lines printed for the hobbies. *)
Definition hobby_lines (hobbies : list str) : list str :=
  match hobbies with
  | [] => [lit "You didn't mention any hobbies."]
  | _ :: _ =>
      (lit "Favorite Hobbies ("
         ++ decimal_of_Z (Z.of_nat (List.length hobbies)) ++ lit "):")
        :: List.map (fun hobby => lit "- " ++ hobby) hobbies
  end.

(** [main()] on the lines typed at the console.  The result is the
    profile and the lines of the summary; [None] is a run ended by an
    exception ([ValueError] of a conversion, [EOFError]).  The year
    2025 is the one written in the source. *)
Definition main (inputs : list str) : option (UserProfile * list str) :=
  match inputs with
  | user_name :: birth_year_str :: inputs' =>
      match int_of_str birth_year_str with
      | None => None
      | Some birth_year =>
          let current_age := (2025 - birth_year)%Z in
          match read_hobbies [] inputs' with
          | None => None
          | Some hobbies =>
              let life_stage := generate_profile current_age in
              let user_profile :=
                {| name := user_name; birth_year := birth_year;
                   age := current_age; life_stage := life_stage;
                   hobbies := hobbies |} in
              match str_of_int (age user_profile) with
              | Some age_text =>
                  Some (user_profile,
                        [ (10%N :: lit "---");
                          lit "Profile Summary:";
                          lit "Name: " ++ name user_profile;
                          lit "Age: " ++ age_text;
                          lit "Life Stage: " ++ Lecture2.life_stage user_profile ]
                        ++ hobby_lines (Lecture2.hobbies user_profile)
                        ++ [ lit "---" ])
              | None => None
              end
          end
      end
  | _ => None
  end.

End Main.

(** The test of the hobby loop: [hobby.lower() == "stop"]. *)
Definition is_stop {rt : PyRuntime} (line : str) : bool :=
  str_eqb (str_lower line) (lit "stop").

(** The sentence of the specification on the age, over the calendar
    year in which the program runs. *)
Definition age_follows_current_year {rt : PyRuntime} : Prop :=
  forall (current_year : Z) (inputs : list str) profile printed,
    main inputs = Some (profile, printed) ->
    age profile = (current_year - birth_year profile)%Z.

End Lecture2.

(* ================================================================== *)
(** * Python floats *)
(* ================================================================== *)

(** [len(l)] as the float that [/] converts it to.  A list of CPython
    holds fewer than [2^63] items, and below that bound the conversion
    of the machine integer is the one of the Python integer. *)
Definition float_of_len (n : nat) : float :=
  PrimFloat.of_uint63 (Uint63.of_Z (Z.of_nat n)).

Definition len_ok (n : nat) : bool := (Z.of_nat n <? 2 ^ 63)%Z.

(** One step of the compensated summation that [sum] runs on floats
    (CPython 3.12 and later, the versions that accept the f-string of
    [display_top_performer]): [f_result] is the running sum, [c] the
    running compensation. *)
Definition sum_step (acc : float * float) (x : float) : float * float :=
  let '(f_result, c) := acc in
  let t := (f_result + x)%float in
  if (PrimFloat.abs x <=? PrimFloat.abs f_result)%float
  then (t, (c + ((f_result - t) + x))%float)
  else (t, (c + ((x - t) + f_result))%float).

(** [sum(l)] for a list of floats: the start value [0] is added to the
    first item, the others go through [sum_step], and a compensation
    that is finite and not zero is added at the end. *)
Definition py_sum (l : list float) : float :=
  match l with
  | [] => 0%float
  | x :: l' =>
      let '(f_result, c) := fold_left sum_step l' ((0 + x)%float, 0%float) in
      if negb (c =? 0)%float && PrimFloat.is_finite c
      then (f_result + c)%float else f_result
  end.

Section MinMax.
Variable A : Type.
Variable key : A -> float.

(** [max(l, key=key)] on the non-empty list [best :: l]: the item
    held is kept unless the next one has a key that is greater ([>]),
    so the first of several maximal items is returned. *)
Fixpoint max_from (best : A) (l : list A) : A :=
  match l with
  | [] => best
  | x :: l' => max_from (if (key best <? key x)%float then x else best) l'
  end.

(** [min(l, key=key)] on [best :: l], with [<]. *)
Fixpoint min_from (best : A) (l : list A) : A :=
  match l with
  | [] => best
  | x :: l' => min_from (if (key x <? key best)%float then x else best) l'
  end.

End MinMax.

(** ** Text of a float *)

Definition round_half_even (n d : Z) : Z :=
  let q := (n / d)%Z in
  let r := (n mod d)%Z in
  match (2 * r ?= d)%Z with
  | Lt => q
  | Gt => (q + 1)%Z
  | Eq => if Z.even q then q else (q + 1)%Z
  end.

Definition two_digits (n : Z) : str :=
  [ (Z.to_N (n / 10) + 48)%N; (Z.to_N (n mod 10) + 48)%N ].

Definition sign_text (s : bool) : str := if s then lit "-" else [].

(** [f"{x:.2f}"]: the exact value of the float rounded to two decimals,
    ties to even. *)
Definition format_2f (x : float) : str :=
  match Prim2SF x with
  | S754_nan => lit "nan"
  | S754_infinity s => sign_text s ++ lit "inf"
  | S754_zero s => sign_text s ++ lit "0.00"
  | S754_finite s m e =>
      let hundredths :=
        if (0 <=? e)%Z then (Zpos m * 100 * 2 ^ e)%Z
        else round_half_even (Zpos m * 100) (2 ^ (- e)) in
      sign_text s ++ digits_of_nonneg (hundredths / 100)
        ++ lit "." ++ two_digits (hundredths mod 100)
  end.

(** Splits a string at its first full stop. *)
Fixpoint split_at_dot (s : str) : str * str :=
  match s with
  | [] => ([], [])
  | c :: s' =>
      if (c =? 46)%N then ([], s')
      else let '(a, b) := split_at_dot s' in (c :: a, b)
  end.

Section Floats.
Context {rt : PyRuntime}.

(** [float(s)]: the plain literals (an optional sign, digits, and
    possibly a full stop and more digits, at most 15 digits in all,
    with the blanks of [c_isspace] around them skipped)
    are converted here: their digits and the power of ten are exact
    floats, so the one correctly rounded division gives the float
    nearest to the literal.  Everything else is left to the runtime. *)
Definition float_of_str (s : str) : option float :=
  let t := c_strip s in
  let '(neg, body) :=
    match t with
    | 45%N :: body => (true, body)
    | 43%N :: body => (false, body)
    | _ => (false, t)
    end in
  let '(int_part, frac_part) := split_at_dot body in
  if is_digits int_part && forallb ascii_isdigit frac_part
     && (List.length int_part + List.length frac_part <=? 15)%nat
  then
    let digits := digits_value (int_part ++ frac_part) in
    let scale := (10 ^ Z.of_nat (List.length frac_part))%Z in
    let v := (PrimFloat.of_uint63 (Uint63.of_Z digits)
              / PrimFloat.of_uint63 (Uint63.of_Z scale))%float in
    Some (if neg then (- v)%float else v)
  else float_of_other s.
End Floats.

(* ================================================================== *)
(** * lecture_3: the student grade analyzer *)
(* ================================================================== *)

Module Lecture3.

(** A student dictionary. *)
Record Student := { name : str; grades : list float }.

(** The summary dictionary of [calculate_summary_statistics]. *)
Record Statistics := {
  highest : option float;
  lowest : option float;
  overall : option float
}.

(** [validate_grade(grade)]: [0 <= grade <= 100] *)
Definition validate_grade (grade : float) : bool :=
  (0 <=? grade)%float && (grade <=? 100)%float.

(** [calculate_average(grades)] *)
Definition calculate_average (grades : list float) : option float :=
  match grades with
  | [] => None
  | _ :: _ => Some (py_sum grades / float_of_len (List.length grades))%float
  end.

(** [calculate_summary_statistics(students)]: the loop that fills
    [averages], then the three statistics. *)
Definition collect_average (averages : list float) (student : Student)
  : list float :=
  match calculate_average (grades student) with
  | Some avg => averages ++ [avg]
  | None => averages
  end.

Definition calculate_summary_statistics (students : list Student)
  : Statistics :=
  let averages := fold_left collect_average students [] in
  match averages with
  | [] => {| highest := None; lowest := None; overall := None |}
  | first :: others =>
      {| highest := Some (max_from (fun avg => avg) first others);
         lowest := Some (min_from (fun avg => avg) first others);
         overall := Some (py_sum averages
                          / float_of_len (List.length averages))%float |}
  end.

(** The key of [find_top_performer_data]:
    [calculate_average(student["grades"]) or 0]. *)
Definition top_key (student : Student) : float :=
  match calculate_average (grades student) with
  | Some avg => if (avg =? 0)%float then 0%float else avg
  | None => 0%float
  end.

Definition has_grades (student : Student) : bool :=
  match grades student with [] => false | _ :: _ => true end.

(** [find_top_performer_data(students)] *)
Definition find_top_performer_data (students : list Student)
  : option Student * option float :=
  let students_with_grades := filter has_grades students in
  match students_with_grades with
  | [] => (None, None)
  | first :: others =>
      let top_student := max_from top_key first others in
      let top_avg := calculate_average (grades top_student) in
      (Some top_student, top_avg)
  end.

(** [create_new_student(name)] *)
Definition create_new_student (name : str) : Student :=
  {| name := name; grades := [] |}.

(** [student["grades"].append(grade)] for the student at position
    [i] of the roster. *)
Fixpoint append_grade (students : list Student) (i : nat) (grade : float)
  : list Student :=
  match students, i with
  | [], _ => []
  | s :: rest, O =>
      {| name := name s; grades := grades s ++ [grade] |} :: rest
  | s :: rest, S j => s :: append_grade rest j grade
  end.

(** How a handler ends: the roster as it left it, what it printed, the
    lines it did not read, and whether it ended by the [EOFError] of
    [input()]. *)
Record outcome := {
  roster : list Student;
  printed : list str;
  unread : list str;
  raised : bool
}.

Section Handlers.
Context {rt : PyRuntime}.

(** [validate_student_name(name)] *)
Definition validate_student_name (name : str) : bool := str_isalpha name.

Definition same_name (student : Student) (name : str) : bool :=
  str_eqb (str_lower (Lecture3.name student)) (str_lower name).

(** [find_student_by_name(students, name)]: the first student whose
    lowered name is the lowered [name], as its position in the
    roster (the source returns the dictionary itself, which the
    caller then mutates). *)
Fixpoint find_student_by_name (students : list Student) (name : str)
  : option nat :=
  match students with
  | [] => None
  | s :: rest =>
      if same_name s name then Some O
      else option_map S (find_student_by_name rest name)
  end.

(** [is_duplicate_student(students, name)] *)
Definition is_duplicate_student (students : list Student) (name : str)
  : bool :=
  existsb (fun student => same_name student name) students.

(** [get_student_name_input()], on the line read. *)
Definition get_student_name_input (line : str) : str := str_strip line.

(** [get_grade_input()], on the line read. *)
Definition get_grade_input (line : str) : str * option float :=
  let grade_input := str_lower (str_strip line) in
  if str_eqb grade_input (lit "done") then (grade_input, None)
  else (grade_input, float_of_str grade_input).

(** [display_student_report(students)] *)
Definition display_student_report (students : list Student) : list str :=
  List.map
    (fun student =>
       match calculate_average (grades student) with
       | None => name student ++ lit "'s average grade is N/A"
       | Some avg =>
           name student ++ lit "'s average grade is " ++ format_2f avg
       end)
    students.

Definition text_2f (x : option float) : str :=
  match x with Some v => format_2f v | None => [] end.

(** [display_summary_statistics(statistics)] *)
Definition display_summary_statistics (statistics : Statistics)
  : list str :=
  match highest statistics with
  | None => [lit "No grades available for summary statistics."]
  | Some _ =>
      [ lit "------------------------------";
        lit "Highest average: " ++ text_2f (highest statistics);
        lit "Lowest average: " ++ text_2f (lowest statistics);
        lit "Overall average: " ++ text_2f (overall statistics) ]
  end.

(** [display_top_performer(top_student, top_avg)] *)
Definition display_top_performer
  (top_student : option Student) (top_avg : option float) : list str :=
  match top_student with
  | None => [lit "No students with grades available."]
  | Some student =>
      [ 10%N :: lit "--- Top Performer ---";
        lit "The student with the highest average is " ++ name student
          ++ lit " with a grade of " ++ text_2f top_avg ]
  end.

(** The [while True] loop of [add_grades_to_student] for the student
    at position [i]; [out] is what has been printed so far. *)
Fixpoint grade_loop (students : list Student) (i : nat)
  (grades_added : nat) (out : list str) (inputs : list str)
  : outcome * nat :=
  match inputs with
  | [] =>
      ({| roster := students; printed := out; unread := [];
          raised := true |}, grades_added)
  | line :: rest =>
      let '(grade_input, grade) := get_grade_input line in
      if str_eqb grade_input (lit "done") then
        ({| roster := students; printed := out; unread := rest;
            raised := false |}, grades_added)
      else
        match grade with
        | None =>
            grade_loop students i grades_added
              (out ++ [lit "Error: Invalid input! Please enter a number or 'done'."])
              rest
        | Some g =>
            if negb (validate_grade g) then
              grade_loop students i grades_added
                (out ++ [lit "Error: Grade must be between 0 and 100!"])
                rest
            else
              grade_loop (append_grade students i g) i (S grades_added)
                (out ++ [lit "Success: Grade " ++ float_repr g
                           ++ lit " added!"])
                rest
        end
  end.

Definition student_name (students : list Student) (i : nat) : str :=
  match nth_error students i with Some s => name s | None => [] end.

Definition student_grades (students : list Student) (i : nat)
  : list float :=
  match nth_error students i with Some s => grades s | None => [] end.

(** [add_grades_to_student(student)], the student given by its
    position in the roster. *)
Definition add_grades_to_student (students : list Student) (i : nat)
  (inputs : list str) : outcome :=
  let header :=
    [ 10%N :: lit "Adding grades for " ++ student_name students i;
      lit "Enter grades (0-100) or 'done' to finish:" ] in
  let '(o, grades_added) := grade_loop students i 0 header inputs in
  if raised o then o
  else
    {| roster := roster o;
       printed :=
         printed o ++
         [ lit "Completed: " ++ decimal_of_Z (Z.of_nat grades_added)
             ++ lit " grades added for " ++ student_name (roster o) i
             ++ lit ". Total grades: "
             ++ decimal_of_Z
                  (Z.of_nat (List.length (student_grades (roster o) i))) ];
       unread := unread o;
       raised := false |}.

(** [display_menu()] *)
Definition display_menu : list str :=
  [ 10%N :: lit "--- Student Grade Analyzer ---";
    lit "1. Add a new student";
    lit "2. Add grades for a student";
    lit "3. Show report (all students)";
    lit "4. Find top performer";
    lit "5. Exit" ].

(** [add_student(students)] *)
Definition add_student (students : list Student) (inputs : list str)
  : outcome :=
  match inputs with
  | [] =>
      {| roster := students; printed := []; unread := [];
         raised := true |}
  | line :: rest =>
      let name := get_student_name_input line in
      if negb (validate_student_name name) then
        {| roster := students;
           printed := [lit "Error: Name should consist only of letters"];
           unread := rest; raised := false |}
      else if is_duplicate_student students name then
        {| roster := students;
           printed :=
             [lit "Error: Student '" ++ name ++ lit "' already exists!"];
           unread := rest; raised := false |}
      else
        let new_student := create_new_student name in
        {| roster := students ++ [new_student];
           printed :=
             [lit "Success: Student '" ++ name
                ++ lit "' added successfully!"];
           unread := rest; raised := false |}
  end.

(** [add_grades(students)] *)
Definition add_grades (students : list Student) (inputs : list str)
  : outcome :=
  match students with
  | [] =>
      {| roster := students;
         printed :=
           [lit "Error: No students available. Please add students first."];
         unread := inputs; raised := false |}
  | _ :: _ =>
      match inputs with
      | [] =>
          {| roster := students; printed := []; unread := [];
             raised := true |}
      | line :: rest =>
          let name := get_student_name_input line in
          match find_student_by_name students name with
          | None =>
              {| roster := students;
                 printed :=
                   [lit "Error: Student '" ++ name ++ lit "' not found!"];
                 unread := rest; raised := false |}
          | Some student => add_grades_to_student students student rest
          end
      end
  end.

(** [show_report(students)] *)
Definition show_report (students : list Student) : list str :=
  match students with
  | [] => [lit "No students available."]
  | _ :: _ =>
      [lit "--- Student Report ---"]
        ++ display_student_report students
        ++ display_summary_statistics
             (calculate_summary_statistics students)
  end.

(** [find_top_performer(students)] *)
Definition find_top_performer (students : list Student) : list str :=
  match students with
  | [] => [lit "Error: No students available."]
  | _ :: _ =>
      let '(top_student, top_avg) := find_top_performer_data students in
      display_top_performer top_student top_avg
  end.

(** How the menu loop stands: it has left by a [break], or it is
    still running. *)
Inductive status := Exited | Running.

Definition unexpected_eof : str :=
  lit "An unexpected error occurred: EOF when reading a line".

(** What the [except Exception] clause of [main] makes of a
    handler's outcome. *)
Definition guarded (o : outcome) : outcome :=
  if raised o then
    {| roster := roster o; printed := printed o ++ [unexpected_eof];
       unread := unread o; raised := false |}
  else o.

(** One turn of the [while True] loop of [main], on a console that
    ends by its end: the menu, the choice, its handler, and the
    [except Exception] clause for the [EOFError] of [input()].  The
    clause [except KeyboardInterrupt] is never entered on such a
    console; [menu_turn_at] below has both clauses. *)
Definition menu_turn (students : list Student) (inputs : list str)
  : outcome * status :=
  match inputs with
  | [] =>
      ({| roster := students; printed := display_menu ++ [unexpected_eof];
          unread := []; raised := false |}, Running)
  | line :: rest =>
      let choice := str_strip line in
      let say text :=
        {| roster := students; printed := display_menu ++ text;
           unread := rest; raised := false |} in
      let ran (o : outcome) :=
        let o' := guarded o in
        {| roster := roster o'; printed := display_menu ++ printed o';
           unread := unread o'; raised := false |} in
      if str_eqb choice (lit "1") then (ran (add_student students rest), Running)
      else if str_eqb choice (lit "2") then (ran (add_grades students rest), Running)
      else if str_eqb choice (lit "3") then (say (show_report students), Running)
      else if str_eqb choice (lit "4") then (say (find_top_performer students), Running)
      else if str_eqb choice (lit "5") then
        (say [lit "Thank you for using Student Grade Analyzer. Goodbye!"],
         Exited)
      else
        (say [lit "Error: Invalid choice! Please enter a number between 1-5."],
         Running)
  end.

(** The loop of [main] on such a console, for at most [turns] turns. *)
Fixpoint main_loop (turns : nat) (students : list Student)
  (out : list str) (inputs : list str) : outcome * status :=
  match turns with
  | O =>
      ({| roster := students; printed := out; unread := inputs;
          raised := false |}, Running)
  | S turns' =>
      let '(o, st) := menu_turn students inputs in
      match st with
      | Exited =>
          ({| roster := roster o; printed := out ++ printed o;
              unread := unread o; raised := false |}, Exited)
      | Running =>
          main_loop turns' (roster o) (out ++ printed o) (unread o)
      end
  end.

(** [main()], cut after [turns] turns of its loop. *)
Definition main (turns : nat) (inputs : list str) : outcome * status :=
  main_loop turns [] [lit "Welcome to Student Grade Analyzer!"] inputs.

(** The invariant of the roster. *)
Definition names_alphabetic (students : list Student) : Prop :=
  Forall (fun s => str_isalpha (name s) = true) students.

Definition names_distinct (students : list Student) : Prop :=
  NoDup (List.map (fun s => str_lower (name s)) students).

Definition grades_in_range (students : list Student) : Prop :=
  Forall (fun s => Forall (fun g => validate_grade g = true) (grades s))
         students.

Definition roster_invariant (students : list Student) : Prop :=
  names_alphabetic students /\ names_distinct students
  /\ grades_in_range students.

(** ** The loop of [main] with both of its [except] clauses *)

(** How the console ends once its lines are read: by its end, where
    [input()] raises [EOFError], or by an interrupt from the keyboard
    at the prompt, where it raises [KeyboardInterrupt]. *)
Inductive console_end := EndOfFile | Interrupt.

Definition interrupted : str :=
  10%N :: 10%N :: lit "Program interrupted by user. Exiting...".

(** What the [except] clauses of [main] make of the outcome of the
    [try] body: an exception raised by [input()] is the
    [KeyboardInterrupt] of a console ended by an interrupt, which prints
    its message and breaks the loop, or the [EOFError] of a console at
    its end, which is printed and lets the loop go on. *)
Definition handled (ending : console_end) (o : outcome) : outcome * status :=
  if raised o then
    match ending with
    | Interrupt =>
        ({| roster := roster o; printed := printed o ++ [interrupted];
            unread := unread o; raised := false |}, Exited)
    | EndOfFile =>
        ({| roster := roster o; printed := printed o ++ [unexpected_eof];
            unread := unread o; raised := false |}, Running)
    end
  else (o, Running).

(** One turn of the [while True] loop of [main] on a console that ends
    as [ending] says: [display_menu()], then the [try] body and its two
    [except] clauses. *)
Definition menu_turn_at (ending : console_end) (students : list Student)
  (inputs : list str) : outcome * status :=
  let after_menu (r : outcome * status) :=
    ({| roster := roster (fst r); printed := display_menu ++ printed (fst r);
        unread := unread (fst r); raised := false |}, snd r) in
  match inputs with
  | [] =>
      after_menu
        (handled ending
           {| roster := students; printed := []; unread := [];
              raised := true |})
  | line :: rest =>
      let choice := str_strip line in
      let say text :=
        {| roster := students; printed := text; unread := rest;
           raised := false |} in
      if str_eqb choice (lit "1") then
        after_menu (handled ending (add_student students rest))
      else if str_eqb choice (lit "2") then
        after_menu (handled ending (add_grades students rest))
      else if str_eqb choice (lit "3") then
        after_menu (say (show_report students), Running)
      else if str_eqb choice (lit "4") then
        after_menu (say (find_top_performer students), Running)
      else if str_eqb choice (lit "5") then
        after_menu
          (say [lit "Thank you for using Student Grade Analyzer. Goodbye!"],
           Exited)
      else
        after_menu
          (say [lit "Error: Invalid choice! Please enter a number between 1-5."],
           Running)
  end.

(** The loop of [main] on a console that ends as [ending] says, for at
    most [turns] turns. *)
Fixpoint main_loop_at (ending : console_end) (turns : nat)
  (students : list Student) (out : list str) (inputs : list str)
  : outcome * status :=
  match turns with
  | O =>
      ({| roster := students; printed := out; unread := inputs;
          raised := false |}, Running)
  | S turns' =>
      let '(o, st) := menu_turn_at ending students inputs in
      match st with
      | Exited =>
          ({| roster := roster o; printed := out ++ printed o;
              unread := unread o; raised := false |}, Exited)
      | Running =>
          main_loop_at ending turns' (roster o) (out ++ printed o) (unread o)
      end
  end.

(** [main()] on a console that ends as [ending] says, cut after [turns]
    turns of its loop. *)
Definition main_at (ending : console_end) (turns : nat) (inputs : list str)
  : outcome * status :=
  main_loop_at ending turns [] [lit "Welcome to Student Grade Analyzer!"]
    inputs.

End Handlers.

(** ** The notions of the specification *)

(** The arithmetic mean of a list of floats: its sum divided by its
    length, both as Python computes them. *)
Definition arithmetic_mean (l : list float) : float :=
  (py_sum l / float_of_len (List.length l))%float.

(** The per-student averages, over the students with at least one
    grade, in roster order. *)
Definition student_averages (students : list Student) : list float :=
  List.map (fun s => arithmetic_mean (grades s))
           (filter has_grades students).

(** A grades list as the program builds them: every grade passed
    [validate_grade], and the list has a length that CPython can
    hold. *)
Definition grades_ok (grades : list float) : bool :=
  forallb validate_grade grades && len_ok (List.length grades).

Definition roster_grades_ok (students : list Student) : bool :=
  forallb (fun s => grades_ok (grades s)) students.

(** The grades that a sequence of grade inputs adds, in order. *)
Definition accepted_grade {rt : PyRuntime} (line : str) : option float :=
  match snd (get_grade_input line) with
  | Some g => if validate_grade g then Some g else None
  | None => None
  end.

Fixpoint accepted_grades {rt : PyRuntime} (lines : list str) : list float :=
  match lines with
  | [] => []
  | line :: rest =>
      match accepted_grade line with
      | Some g => g :: accepted_grades rest
      | None => accepted_grades rest
      end
  end.

(** The line printed for one grade input. *)
Definition grade_message {rt : PyRuntime} (line : str) : str :=
  match snd (get_grade_input line) with
  | None => lit "Error: Invalid input! Please enter a number or 'done'."
  | Some g =>
      if validate_grade g
      then lit "Success: Grade " ++ float_repr g ++ lit " added!"
      else lit "Error: Grade must be between 0 and 100!"
  end.

Definition is_done {rt : PyRuntime} (line : str) : bool :=
  str_eqb (fst (get_grade_input line)) (lit "done").

(** The roster after the grades [gs] were appended to student [i]. *)
Definition append_grades (students : list Student) (i : nat)
  (gs : list float) : list Student :=
  fold_left (fun sts g => append_grade sts i g) gs students.

(** The number of grades that a roster holds. *)
Definition total_grades (students : list Student) : nat :=
  list_sum (List.map (fun s => List.length (grades s)) students).

(** [new] keeps [old]: the students of [old] are the first students of
    [new], in the same order and under the same names, and each has the
    grades it had, possibly followed by more. *)
Definition keeps (old new : list Student) : Prop :=
  (exists added,
      List.map name new = List.map name old ++ added)
  /\ forall i s, nth_error old i = Some s ->
       exists s' more,
         nth_error new i = Some s' /\ name s' = name s
         /\ grades s' = grades s ++ more.

(** ** Rosters of the examples *)

(** Averages 80 and 90. *)
Definition roster_80_90 : list Student :=
  [ {| name := lit "Ann"; grades := [80]%float |};
    {| name := lit "Bob"; grades := [85; 95]%float |} ].

(** Averages 70, 95 and 95, and a student without grades. *)
Definition roster_70_95_95 : list Student :=
  [ {| name := lit "Ann"; grades := [70]%float |};
    {| name := lit "Zed"; grades := [] |};
    {| name := lit "Bob"; grades := [95]%float |};
    {| name := lit "Cid"; grades := [90; 100]%float |} ].

End Lecture3.

(** A runtime for the examples, whose consoles only carry ASCII text
    and plain decimal literals: the tables and conversions below are not
    consulted on such input.  The text of a float, which only the
    message "Success: Grade ... added!" shows, is left empty. *)
Definition ascii_runtime : PyRuntime := {|
  unicode_isalpha := fun _ => false;
  unicode_isspace := fun _ => false;
  unicode_lower := fun s => s;
  float_of_other := fun _ => None;
  int_of_other := fun _ => None;
  str_of_big_int := fun _ => None;
  float_repr := fun _ => []
|}.

(** ** Classes of floats, on their IEEE 754 description *)

Definition sf_nan (x : spec_float) : bool :=
  match x with S754_nan => true | _ => false end.

Definition sf_nonneg (x : spec_float) : bool :=
  match x with
  | S754_zero _ | S754_infinity false | S754_finite false _ _ => true
  | _ => false
  end.

Definition sf_finite (x : spec_float) : bool :=
  match x with S754_zero _ | S754_finite _ _ _ => true | _ => false end.

Definition sf_pos_finite (x : spec_float) : bool :=
  match x with S754_finite false _ _ => true | _ => false end.

(** A float that is a number, zero or above (or [+inf]). *)
Definition fl_nonneg (x : float) : bool := sf_nonneg (Prim2SF x).

(* ================================================================== *)
(** * Facts on floats *)
(* ================================================================== *)

Unset Implicit Arguments.

(** ** Rounding never invents a NaN *)

(** [iter_pos] is plain iteration. *)
Lemma iter_pos_nat {A} (f : A -> A) p x :
  iter_pos f p x = Nat.iter (Pos.to_nat p) f x.
Proof.
  revert x. induction p as [p IH|p IH|]; intros x; cbn [iter_pos].
  - rewrite !IH, Pos2Nat.inj_xI.
    replace (S (2 * Pos.to_nat p)) with (Pos.to_nat p + (Pos.to_nat p + 1))%nat by lia.
    rewrite !Nat.iter_add. reflexivity.
  - rewrite !IH, Pos2Nat.inj_xO.
    replace (2 * Pos.to_nat p)%nat with (Pos.to_nat p + Pos.to_nat p)%nat by lia.
    rewrite Nat.iter_add. reflexivity.
  - reflexivity.
Qed.

Lemma shr_1_m r : (0 <= shr_m r)%Z -> shr_m (shr_1 r) = Z.div2 (shr_m r).
Proof.
  destruct r as [m r s]. cbn [shr_m]. intros H.
  destruct m as [|[p|p|]|p]; try reflexivity; lia.
Qed.

Lemma shr_iter_m k r :
  (0 <= shr_m r)%Z ->
  shr_m (Nat.iter k shr_1 r) = Z.shiftr (shr_m r) (Z.of_nat k).
Proof.
  intros H. induction k as [|k IH].
  - change (Nat.iter 0 shr_1 r) with r. change (Z.of_nat 0) with 0%Z.
    rewrite Z.shiftr_0_r. reflexivity.
  - change (Nat.iter (S k) shr_1 r) with (shr_1 (Nat.iter k shr_1 r)).
    rewrite shr_1_m.
    + rewrite IH, Z.div2_spec, Z.shiftr_shiftr by lia. f_equal. lia.
    + rewrite IH. apply Z.shiftr_nonneg. exact H.
Qed.

Lemma shr_record_of_loc_m m l : shr_m (shr_record_of_loc m l) = m.
Proof. destruct l as [|[]]; reflexivity. Qed.

Lemma digits2_size p : digits2_pos p = Pos.size p.
Proof. induction p; cbn; congruence. Qed.

Lemma Zdigits2_log2 m : (0 < m)%Z -> Zdigits2 m = (Z.log2 m + 1)%Z.
Proof.
  destruct m as [|p|p]; try lia. intros _. cbn [Zdigits2].
  rewrite digits2_size.
  destruct p; cbn; lia.
Qed.

(** Shifting a positive mantissa by the amount that [fexp] asks for
    leaves it positive and raises the exponent by the digits dropped. *)
Lemma shr_fexp_pos m e l :
  (0 < m)%Z -> (emin <= e)%Z ->
  let '(r, e') := shr_fexp prec emax m e l in
  (0 < shr_m r <= m)%Z /\ (e <= e')%Z /\ (e' <= e + Z.max 0 (Zdigits2 m - prec))%Z.
Proof.
  intros Hm He. unfold shr_fexp, shr.
  rewrite (Zdigits2_log2 m Hm).
  pose proof (Z.log2_nonneg m) as Hl.
  set (n := (fexp prec emax (Z.log2 m + 1 + e) - e)%Z).
  assert (Hn : (n <= Z.log2 m)%Z).
  { unfold n, fexp, SpecFloat.emin in *. unfold prec, emax in *. lia. }
  assert (Hn2 : (n <= Z.max 0 (Z.log2 m + 1 - prec))%Z).
  { unfold n, fexp, SpecFloat.emin in *. unfold prec, emax in *. lia. }
  destruct n as [|p|p] eqn:En.
  - rewrite shr_record_of_loc_m. lia.
  - rewrite iter_pos_nat, shr_iter_m by (rewrite shr_record_of_loc_m; lia).
    rewrite shr_record_of_loc_m, positive_nat_Z, Z.shiftr_div_pow2 by lia.
    assert (H2 : (2 ^ Z.pos p <= m)%Z).
    { apply Z.le_trans with (2 ^ Z.log2 m)%Z.
      - apply Z.pow_le_mono_r; lia.
      - apply Z.log2_spec. lia. }
    assert (Hp : (0 < 2 ^ Z.pos p)%Z) by (apply Z.pow_pos_nonneg; lia).
    split; [split|].
    + apply Z.div_str_pos. lia.
    + apply Z.div_le_upper_bound; nia.
    + lia.
  - rewrite shr_record_of_loc_m. lia.
Qed.

Lemma shr_fexp_nonneg m e l :
  (0 <= m)%Z -> (0 <= shr_m (fst (shr_fexp prec emax m e l)))%Z.
Proof.
  intros Hm. unfold shr_fexp, shr.
  destruct (fexp prec emax (Zdigits2 m + e) - e)%Z as [|p|p]; cbn [fst];
    rewrite ?iter_pos_nat, ?shr_iter_m, ?shr_record_of_loc_m;
    try apply Z.shiftr_nonneg; rewrite ?shr_record_of_loc_m; lia.
Qed.

Lemma round_nearest_even_bounds m l :
  (m <= round_nearest_even m l <= m + 1)%Z.
Proof.
  unfold round_nearest_even. destruct l as [|[]]; try destruct (Z.even m); lia.
Qed.

(** A rounded non-negative mantissa is never a NaN, and keeps the sign
    it was given. *)
Lemma binary_round_aux_sign sx mx ex lx :
  (0 <= mx)%Z ->
  match binary_round_aux prec emax sx mx ex lx with
  | S754_zero s | S754_infinity s | S754_finite s _ _ => s = sx
  | S754_nan => False
  end.
Proof.
  intros Hm. unfold binary_round_aux.
  pose proof (shr_fexp_nonneg mx ex lx Hm) as H1.
  destruct (shr_fexp prec emax mx ex lx) as [r1 e1]. cbn [fst] in H1.
  pose proof (round_nearest_even_bounds (shr_m r1) (loc_of_shr_record r1)) as Hr.
  pose proof (shr_fexp_nonneg (round_nearest_even (shr_m r1) (loc_of_shr_record r1))
                e1 loc_Exact ltac:(lia)) as H2.
  destruct (shr_fexp prec emax _ e1 loc_Exact) as [r2 e2]. cbn [fst] in H2.
  destruct (shr_m r2) as [|p|p]; try lia; try reflexivity.
  destruct (e2 <=? emax - prec)%Z; reflexivity.
Qed.

Lemma Zdigits2_mono a b : (0 < a <= b)%Z -> (Zdigits2 a <= Zdigits2 b)%Z.
Proof.
  intros H. rewrite !Zdigits2_log2 by lia.
  pose proof (Z.log2_le_mono a b). lia.
Qed.

Lemma Zdigits2_succ a : (0 < a)%Z -> (Zdigits2 (a + 1) <= Zdigits2 a + 1)%Z.
Proof.
  intros H. rewrite !Zdigits2_log2 by lia.
  pose proof (Z.log2_succ_le a). unfold Z.succ in *. lia.
Qed.

(** A positive mantissa of at most 64 digits with a moderate exponent
    rounds to a finite, non-zero float. *)
Lemma binary_round_aux_finite sx mx ex lx :
  (0 < mx)%Z -> (Zdigits2 mx <= 64)%Z -> (emin <= ex <= 900)%Z ->
  exists m e, binary_round_aux prec emax sx mx ex lx = S754_finite sx m e.
Proof.
  intros Hm Hd He. unfold binary_round_aux.
  pose proof (shr_fexp_pos mx ex lx Hm (proj1 He)) as H1.
  destruct (shr_fexp prec emax mx ex lx) as [r1 e1].
  destruct H1 as (Hr1 & He1 & He1').
  pose proof (round_nearest_even_bounds (shr_m r1) (loc_of_shr_record r1)) as Hr.
  set (m2 := round_nearest_even (shr_m r1) (loc_of_shr_record r1)) in *.
  assert (Hm2 : (0 < m2)%Z) by lia.
  assert (Hd2 : (Zdigits2 m2 <= 65)%Z).
  { pose proof (Zdigits2_mono m2 (shr_m r1 + 1)).
    pose proof (Zdigits2_succ (shr_m r1)).
    pose proof (Zdigits2_mono (shr_m r1) mx). lia. }
  pose proof (shr_fexp_pos m2 e1 loc_Exact Hm2 ltac:(lia)) as H2.
  destruct (shr_fexp prec emax m2 e1 loc_Exact) as [r2 e2].
  destruct H2 as (Hr2 & He2 & He2').
  destruct (shr_m r2) as [|p|p]; try lia.
  replace (e2 <=? emax - prec)%Z with true.
  - eauto.
  - symmetry. apply Z.leb_le. unfold prec, emax in *. lia.
Qed.

Lemma digits2_iter_xO p d :
  Zpos (digits2_pos (Pos.iter xO p d)) = (Zpos (digits2_pos p) + Zpos d)%Z.
Proof.
  induction d as [|d IH] using Pos.peano_ind.
  - cbn. lia.
  - rewrite Pos.iter_succ. cbn [digits2_pos]. lia.
Qed.

Lemma digits2_bound p : (Zpos p < 2 ^ 63)%Z -> (Zpos (digits2_pos p) <= 63)%Z.
Proof.
  intros H. change (Zpos (digits2_pos p)) with (Zdigits2 (Zpos p)).
  rewrite Zdigits2_log2 by lia.
  assert (Z.log2 (Zpos p) < 63)%Z by (apply Z.log2_lt_pow2; lia). lia.
Qed.

(** The float of a machine integer that is not zero is finite and
    positive. *)
Lemma of_uint63_finite (n : int) :
  (0 < Uint63.to_Z n)%Z ->
  exists m e, Prim2SF (PrimFloat.of_uint63 n) = S754_finite false m e.
Proof.
  intros Hn. rewrite FloatAxioms.of_uint63_spec.
  pose proof (Uint63.to_Z_bounded n) as Hb.
  destruct (Uint63.to_Z n) as [|p|p] eqn:E; try lia.
  assert (Hp : (Zpos p < 2 ^ 63)%Z) by (change (2 ^ 63)%Z with wB; lia).
  pose proof (digits2_bound p Hp) as Hd.
  cbn [binary_normalize]. unfold binary_round, shl_align.
  assert (Hpos : (0 < Zpos (digits2_pos p))%Z) by lia.
  unfold fexp, SpecFloat.emin.
  destruct (Z.max (Z.pos (digits2_pos p) + 0 - prec) (3 - emax - prec) - 0)%Z
    as [|d|d] eqn:Ed.
  - apply binary_round_aux_finite; cbn [Zdigits2];
      unfold SpecFloat.emin, prec, emax in *; lia.
  - apply binary_round_aux_finite; cbn [Zdigits2];
      unfold SpecFloat.emin, prec, emax in *; lia.
  - apply binary_round_aux_finite; cbn [Zdigits2].
    + lia.
    + rewrite digits2_iter_xO. unfold prec, emax in *. lia.
    + unfold prec, emax, SpecFloat.emin in *. lia.
Qed.

Lemma binary_normalize_sign m e :
  match binary_normalize prec emax m e false with
  | S754_zero s | S754_infinity s | S754_finite s _ _ => (0 <= m)%Z -> s = false
  | S754_nan => False
  end.
Proof.
  destruct m as [|p|p]; cbn [binary_normalize]; [reflexivity| |];
    unfold binary_round;
    match goal with |- context [shl_align ?a ?b ?c] => destruct (shl_align a b c) as [mz ez] end.
  - pose proof (binary_round_aux_sign false (Zpos mz) ez loc_Exact ltac:(lia)) as H.
    destruct (binary_round_aux _ _ _ _ _ _); auto.
  - pose proof (binary_round_aux_sign true (Zpos mz) ez loc_Exact ltac:(lia)) as H.
    destruct (binary_round_aux _ _ _ _ _ _); auto; lia.
Qed.

Lemma SFadd_nonneg x y :
  sf_nonneg x = true -> sf_nonneg y = true -> sf_nonneg (SF64add x y) = true.
Proof.
  destruct x as [[]|[]| |[] mx ex], y as [[]|[]| |[] my ey];
    cbn [sf_nonneg]; try discriminate; try reflexivity.
  intros _ _. unfold SF64add, SFadd. cbn [cond_Zopp].
  match goal with |- context [binary_normalize _ _ ?m ?e false] =>
    pose proof (binary_normalize_sign m e) as H;
    destruct (binary_normalize prec emax m e false) as [s|s| |s ? ?] end;
    try contradiction; try reflexivity;
    rewrite H by lia; reflexivity.
Qed.

Lemma SFadd_finite_not_nan x c :
  sf_nan x = false -> sf_finite c = true -> sf_nan (SF64add x c) = false.
Proof.
  destruct x as [[]|[]| |sx mx ex], c as [[]|[]| |sc mc ec];
    cbn [sf_nan sf_finite]; try discriminate; try reflexivity.
  intros _ _. unfold SF64add, SFadd.
  match goal with |- context [binary_normalize _ _ ?m ?e false] =>
    pose proof (binary_normalize_sign m e) as H;
    destruct (binary_normalize prec emax m e false) end;
    try contradiction; reflexivity.
Qed.

Lemma SFdiv_not_nan x y :
  sf_nan x = false -> sf_pos_finite y = true -> sf_nan (SF64div x y) = false.
Proof.
  destruct x as [[]|[]| |sx mx ex], y as [[]|[]| |[] my ey];
    cbn [sf_nan sf_pos_finite]; try discriminate; try reflexivity.
  intros _ _. unfold SF64div, SFdiv, SFdiv_core_binary.
  set (s := (ex - ey - _)%Z).
  set (m' := match s with Z0 => Zpos mx | Zpos _ => Z.shiftl (Zpos mx) s | Zneg _ => 0%Z end).
  assert (Hm' : (0 <= m')%Z).
  { unfold m'. destruct s; try lia. apply Z.shiftl_nonneg. lia. }
  pose proof (Z.div_pos m' (Zpos my) Hm' ltac:(lia)) as Hq.
  unfold Z.div in Hq.
  destruct (Z.div_eucl m' (Zpos my)) as [q r]. cbn [fst] in Hq.
  pose proof (binary_round_aux_sign (xorb sx false) q
                (Z.min (fexp prec emax (Zdigits2 (Zpos mx) + ex - (Zdigits2 (Zpos my) + ey))) (ex - ey))
                (new_location (Zpos my) r) Hq) as H.
  destruct (binary_round_aux _ _ _ _ _ _); try contradiction; reflexivity.
Qed.

(** ** The order of the floats that are numbers *)

Ltac sf_cases :=
  repeat match goal with
  | x : spec_float |- _ => destruct x as [[]|[]| |[] ? ?]
  end; cbn -[Z.compare Pos.compare_cont]; try reflexivity; try discriminate.

Ltac cmp_cases :=
  repeat match goal with
  | |- context [Z.compare ?a ?b] => destruct (Z.compare_spec a b)
  | |- context [Pos.compare_cont Eq ?a ?b] => change (Pos.compare_cont Eq a b) with (Pos.compare a b); destruct (Pos.compare_spec a b)
  end; cbn; intros; try reflexivity; try discriminate; try lia.

Lemma SFltb_false_leb x y :
  sf_nan x = false -> sf_nan y = false -> SFltb x y = false -> SFleb y x = true.
Proof.
  unfold SFltb, SFleb. sf_cases; cmp_cases.
Qed.

Lemma SFleb_trans x y z : SFleb x y = true -> SFleb y z = true -> SFleb x z = true.
Proof.
  unfold SFleb. sf_cases; cmp_cases.
Qed.

Lemma SFltb_leb x y : SFltb x y = true -> SFleb x y = true.
Proof. unfold SFltb, SFleb. destruct (SFcompare x y) as [[]|]; congruence. Qed.

Lemma SFltb_leb_trans x y z :
  SFltb x y = true -> SFleb y z = true -> SFltb x z = true.
Proof. unfold SFltb, SFleb. sf_cases; cmp_cases. Qed.

Lemma SFleb_ltb_trans x y z :
  SFleb x y = true -> SFltb y z = true -> SFltb x z = true.
Proof. unfold SFltb, SFleb. sf_cases; cmp_cases. Qed.

Lemma SFltb_trans x y z :
  SFltb x y = true -> SFltb y z = true -> SFltb x z = true.
Proof. unfold SFltb. sf_cases; cmp_cases. Qed.

Lemma SFleb_refl x : sf_nan x = false -> SFleb x x = true.
Proof. unfold SFleb. sf_cases; cmp_cases. Qed.

Lemma SFeqb_refl x : SFeqb x x = negb (sf_nan x).
Proof. unfold SFeqb. sf_cases; cmp_cases. Qed.

(** Both zeros compare alike. *)
Lemma SFcompare_zero_l s x :
  SFcompare (S754_zero s) x = SFcompare (S754_zero false) x.
Proof. destruct x as [[]|[]| |[] ? ?]; reflexivity. Qed.

Lemma SFcompare_zero_r s x :
  SFcompare x (S754_zero s) = SFcompare x (S754_zero false).
Proof. destruct x as [[]|[]| |[] ? ?]; reflexivity. Qed.

Lemma SFeqb_zero x : SFeqb x (S754_zero false) = true -> exists s, x = S754_zero s.
Proof.
  unfold SFeqb. destruct x as [s|[]| |[] ? ?]; cbn; try discriminate. eauto.
Qed.

(** ** The same facts on primitive floats *)

Lemma is_nan_sf x : PrimFloat.is_nan x = sf_nan (Prim2SF x).
Proof.
  unfold PrimFloat.is_nan. rewrite FloatAxioms.eqb_spec, SFeqb_refl, negb_involutive.
  reflexivity.
Qed.

Lemma fl_nonneg_not_nan x : fl_nonneg x = true -> PrimFloat.is_nan x = false.
Proof.
  rewrite is_nan_sf. unfold fl_nonneg. destruct (Prim2SF x) as [|[]| |[] ? ?];
    cbn; congruence.
Qed.

Lemma fl_ltb_false x y :
  PrimFloat.is_nan x = false -> PrimFloat.is_nan y = false ->
  (x <? y)%float = false -> (y <=? x)%float = true.
Proof. rewrite !is_nan_sf, FloatAxioms.ltb_spec, FloatAxioms.leb_spec. apply SFltb_false_leb. Qed.

Lemma fl_leb_trans x y z :
  (x <=? y)%float = true -> (y <=? z)%float = true -> (x <=? z)%float = true.
Proof. rewrite !FloatAxioms.leb_spec. apply SFleb_trans. Qed.

Lemma fl_ltb_leb x y : (x <? y)%float = true -> (x <=? y)%float = true.
Proof. rewrite FloatAxioms.ltb_spec, FloatAxioms.leb_spec. apply SFltb_leb. Qed.

Lemma fl_ltb_leb_trans x y z :
  (x <? y)%float = true -> (y <=? z)%float = true -> (x <? z)%float = true.
Proof. rewrite !FloatAxioms.ltb_spec, FloatAxioms.leb_spec. apply SFltb_leb_trans. Qed.

Lemma fl_leb_ltb_trans x y z :
  (x <=? y)%float = true -> (y <? z)%float = true -> (x <? z)%float = true.
Proof. rewrite !FloatAxioms.ltb_spec, FloatAxioms.leb_spec. apply SFleb_ltb_trans. Qed.

Lemma fl_ltb_trans x y z :
  (x <? y)%float = true -> (y <? z)%float = true -> (x <? z)%float = true.
Proof. rewrite !FloatAxioms.ltb_spec. apply SFltb_trans. Qed.

Lemma fl_leb_refl x : PrimFloat.is_nan x = false -> (x <=? x)%float = true.
Proof. rewrite is_nan_sf, FloatAxioms.leb_spec. apply SFleb_refl. Qed.

Lemma Prim2SF_zero : Prim2SF 0%float = S754_zero false.
Proof. reflexivity. Qed.

Lemma fl_eqb_zero x : (x =? 0)%float = true -> exists s, Prim2SF x = S754_zero s.
Proof. rewrite FloatAxioms.eqb_spec, Prim2SF_zero. apply SFeqb_zero. Qed.

Lemma fl_ltb_zero_l x y :
  (x =? 0)%float = true -> (x <? y)%float = (0 <? y)%float.
Proof.
  intros H. destruct (fl_eqb_zero x H) as [s Hs].
  rewrite !FloatAxioms.ltb_spec, Hs, Prim2SF_zero. unfold SFltb.
  rewrite SFcompare_zero_l. reflexivity.
Qed.

Lemma fl_ltb_zero_r x y :
  (x =? 0)%float = true -> (y <? x)%float = (y <? 0)%float.
Proof.
  intros H. destruct (fl_eqb_zero x H) as [s Hs].
  rewrite !FloatAxioms.ltb_spec, Hs, Prim2SF_zero. unfold SFltb.
  rewrite SFcompare_zero_r. reflexivity.
Qed.



(** [x or 0] on a float: a zero of either sign becomes [0], which
    compares as the zero it replaces. *)
Lemma or_zero_ltb a b :
  ((if a =? 0 then 0 else a) <? (if b =? 0 then 0 else b))%float = (a <? b)%float.
Proof.
  destruct (a =? 0)%float eqn:Ea, (b =? 0)%float eqn:Eb;
    rewrite ?(fl_ltb_zero_l a _ Ea), ?(fl_ltb_zero_r b _ Eb); reflexivity.
Qed.



Lemma fl_add_nonneg x y :
  fl_nonneg x = true -> fl_nonneg y = true -> fl_nonneg (x + y)%float = true.
Proof. unfold fl_nonneg. rewrite FloatAxioms.add_spec. apply SFadd_nonneg. Qed.

Lemma fl_is_finite_sf c :
  PrimFloat.is_finite c = true -> sf_finite (Prim2SF c) = true.
Proof.
  unfold PrimFloat.is_finite, PrimFloat.is_infinity.
  rewrite is_nan_sf, FloatAxioms.eqb_spec, FloatAxioms.abs_spec.
  change (Prim2SF infinity) with (S754_infinity false).
  destruct (Prim2SF c) as [|[]| |]; cbn; congruence.
Qed.

Lemma fl_add_finite x c :
  PrimFloat.is_nan x = false -> PrimFloat.is_finite c = true ->
  PrimFloat.is_nan (x + c)%float = false.
Proof.
  rewrite !is_nan_sf, FloatAxioms.add_spec. intros Hx Hc.
  apply SFadd_finite_not_nan; [exact Hx | apply fl_is_finite_sf; exact Hc].
Qed.

Lemma float_of_len_finite n :
  (0 < n)%nat -> len_ok n = true -> sf_pos_finite (Prim2SF (float_of_len n)) = true.
Proof.
  unfold len_ok, float_of_len. intros Hn Hb. apply Z.ltb_lt in Hb.
  destruct (of_uint63_finite (Uint63.of_Z (Z.of_nat n))) as (m & e & H).
  - rewrite Uint63.of_Z_spec, Z.mod_small; [lia|].
    change wB with (2 ^ 63)%Z. lia.
  - rewrite H. reflexivity.
Qed.

Lemma fl_div_len x n :
  PrimFloat.is_nan x = false -> (0 < n)%nat -> len_ok n = true ->
  PrimFloat.is_nan (x / float_of_len n)%float = false.
Proof.
  rewrite !is_nan_sf, FloatAxioms.div_spec. intros Hx Hn Hb.
  apply SFdiv_not_nan; [exact Hx | apply float_of_len_finite; assumption].
Qed.

(** ** [sum] of non-negative numbers is a number *)

Lemma sum_step_nonneg acc x :
  fl_nonneg (fst acc) = true -> fl_nonneg x = true ->
  fl_nonneg (fst (sum_step acc x)) = true.
Proof.
  destruct acc as [f c]. cbn [fst sum_step]. intros Hf Hx.
  destruct (PrimFloat.abs x <=? PrimFloat.abs f)%float; cbn [fst];
    apply fl_add_nonneg; assumption.
Qed.

Lemma sum_loop_nonneg l acc :
  fl_nonneg (fst acc) = true -> Forall (fun x => fl_nonneg x = true) l ->
  fl_nonneg (fst (fold_left sum_step l acc)) = true.
Proof.
  revert acc. induction l as [|x l IH]; intros acc Hacc Hl; cbn [fold_left].
  - exact Hacc.
  - inversion Hl; subst. apply IH; [apply sum_step_nonneg|]; assumption.
Qed.

Lemma py_sum_not_nan l :
  Forall (fun x => fl_nonneg x = true) l -> PrimFloat.is_nan (py_sum l) = false.
Proof.
  intros Hl. destruct l as [|x l]; [reflexivity|].
  inversion Hl as [|? ? Hx Hl']; subst. unfold py_sum.
  pose proof (sum_loop_nonneg l (0 + x, 0)%float) as H. cbn [fst] in H.
  specialize (H (fl_add_nonneg 0 x eq_refl Hx) Hl').
  destruct (fold_left sum_step l (0 + x, 0)%float) as [f c]. cbn [fst] in H.
  apply fl_nonneg_not_nan in H.
  destruct (negb (c =? 0)%float && PrimFloat.is_finite c) eqn:E.
  - apply andb_prop in E. apply fl_add_finite; [exact H | apply E].
  - exact H.
Qed.

(* ================================================================== *)
(** * Facts on strings *)
(* ================================================================== *)

Lemma str_eqb_eq (a b : str) : str_eqb a b = true <-> a = b.
Proof.
  revert b. induction a as [|x a IH]; intros [|y b]; cbn [str_eqb];
    try (split; [discriminate | congruence]); try tauto.
  rewrite andb_true_iff, N.eqb_eq, IH. split.
  - intros [-> ->]. reflexivity.
  - intros H. injection H. auto.
Qed.

Lemma str_isalpha_forall {rt : PyRuntime} (s : str) :
  str_isalpha s = true <-> s <> [] /\ forall c, In c s -> char_isalpha c = true.
Proof.
  unfold str_isalpha. destruct s as [|c s].
  - split; [discriminate | intros [H _]; congruence].
  - rewrite forallb_forall. split.
    + intros H. split; [discriminate | exact H].
    + intros [_ H]. exact H.
Qed.

(* ================================================================== *)
(** * lecture_2: properties *)
(* ================================================================== *)

Module Lecture2Facts.
Import Lecture2.

(** C3. For every integer age, [generate_profile] returns one of the
    four labels, chosen by range: "Child" exactly for 0..12,
    "Teenager" exactly for 13..19, "Adult" exactly from 20 on,
    "Unknown" exactly for the negative ages; and 12 is a child, 13 a
    teenager, -1 unknown. *)
Theorem generate_profile_by_range (age : Z) :
  In (generate_profile age)
     [lit "Child"; lit "Teenager"; lit "Adult"; lit "Unknown"]
  /\ (generate_profile age = lit "Child" <-> (0 <= age <= 12)%Z)
  /\ (generate_profile age = lit "Teenager" <-> (13 <= age <= 19)%Z)
  /\ (generate_profile age = lit "Adult" <-> (20 <= age)%Z)
  /\ (generate_profile age = lit "Unknown" <-> (age < 0)%Z)
  /\ generate_profile 12 = lit "Child"
  /\ generate_profile 13 = lit "Teenager"
  /\ generate_profile (-1) = lit "Unknown".
Proof.
  unfold generate_profile. rewrite Z.geb_leb.
  destruct (Z.leb_spec 0 age), (Z.leb_spec age 12), (Z.leb_spec 13 age),
    (Z.leb_spec age 19), (Z.leb_spec 20 age); cbn [andb]; try lia;
    (repeat apply conj; try reflexivity; try (cbn [In]; auto; fail);
     intros Hlabel;
     first [ lia | reflexivity
           | apply (f_equal (fun s => nth 0 s 0%N)) in Hlabel;
             discriminate Hlabel ]).
Qed.

Section Main.
Context {rt : PyRuntime}.

(** A console on which the hobby loop ends: hobbies, none of which
    lowers to "stop", and then a line that does. *)
Lemma read_hobbies_stop hobbies stop rest acc :
  forallb (fun h => negb (str_eqb (str_lower h) (lit "stop"))) hobbies = true ->
  str_eqb (str_lower stop) (lit "stop") = true ->
  read_hobbies acc (hobbies ++ stop :: rest) = Some (acc ++ hobbies).
Proof.
  revert acc. induction hobbies as [|h hobbies IH]; intros acc Hh Hs.
  - cbn [app read_hobbies]. rewrite Hs, app_nil_r. reflexivity.
  - cbn [forallb] in Hh. apply andb_prop in Hh. destruct Hh as [Hh1 Hh2].
    apply negb_true_iff in Hh1. cbn [app read_hobbies].
    rewrite Hh1, IH by assumption.
    rewrite <- app_assoc. reflexivity.
Qed.

(** Whenever [main] prints a profile, its age is 2025 minus the
    birth year read, and the life stage is the one of that age. *)
Lemma profile_age_when_printed inputs profile printed :
  main inputs = Some (profile, printed) ->
  age profile = (2025 - birth_year profile)%Z
  /\ life_stage profile = generate_profile (age profile).
Proof.
  unfold main. destruct inputs as [|user_name [|birth_year_str inputs']];
    try discriminate.
  destruct (int_of_str birth_year_str) as [by_|]; try discriminate.
  destruct (read_hobbies [] inputs') as [hobbies|]; try discriminate.
  cbn [age]. destruct (str_of_int (2025 - by_)); try discriminate.
  intros H. injection H as <- _. cbn. auto.
Qed.

(** C7, amended.  For every birth year entered (a line that [int]
    converts), once the hobbies are closed by "stop" the program
    prints a profile whose age is 2025 minus the birth year, 2025
    being the year written in the source; the life stage of the
    profile is the one of that age, and the lines "Age: ..." and
    "Life Stage: ..." of the summary show these two values. *)
Theorem main_age_from_2025
  user_name birth_year_str birth_year hobbies stop rest age_text :
  int_of_str birth_year_str = Some birth_year ->
  forallb (fun h => negb (str_eqb (str_lower h) (lit "stop"))) hobbies
    = true ->
  str_eqb (str_lower stop) (lit "stop") = true ->
  str_of_int (2025 - birth_year) = Some age_text ->
  exists profile printed,
    main (user_name :: birth_year_str :: hobbies ++ stop :: rest)
      = Some (profile, printed)
    /\ Lecture2.birth_year profile = birth_year
    /\ age profile = (2025 - birth_year)%Z
    /\ life_stage profile = generate_profile (2025 - birth_year)
    /\ nth_error printed 3 = Some (lit "Age: " ++ age_text)
    /\ nth_error printed 4
       = Some (lit "Life Stage: " ++ generate_profile (2025 - birth_year)).
Proof.
  intros Hint Hhobbies Hstop Htext. unfold main.
  rewrite Hint, (read_hobbies_stop hobbies stop rest [] Hhobbies Hstop).
  cbn [age]. rewrite Htext.
  eexists; eexists; split; [reflexivity|]. cbn. auto 10.
Qed.

End Main.

Lemma main_age_from_2025_witness :
  exists profile printed,
    main (rt := ascii_runtime)
         (lit "Ann" :: lit "2000" :: [lit "chess"] ++ lit "stop" :: [])
      = Some (profile, printed)
    /\ Lecture2.birth_year profile = 2000%Z
    /\ age profile = (2025 - 2000)%Z
    /\ life_stage profile = generate_profile (2025 - 2000)
    /\ nth_error printed 3 = Some (lit "Age: " ++ lit "25")
    /\ nth_error printed 4
       = Some (lit "Life Stage: " ++ generate_profile (2025 - 2000)).
Proof.
  apply (main_age_from_2025 (rt := ascii_runtime)
           (lit "Ann") (lit "2000") 2000%Z [lit "chess"] (lit "stop") []
           (lit "25")); reflexivity.
Defined.

(** C7 as the specification states it fails: run in 2026 on the birth
    year 2000, the program still reports the age 25. *)
Lemma age_is_not_current_year_minus_birth_year :
  ~ (forall rt : PyRuntime, @age_follows_current_year rt).
Proof.
  intros H.
  specialize (H ascii_runtime 2026%Z [lit "Ann"; lit "2000"; lit "stop"]).
  vm_compute in H. specialize (H _ _ eq_refl). discriminate H.
Qed.

End Lecture2Facts.

(* ================================================================== *)
(** * [max] and [min] *)
(* ================================================================== *)

Section MinMaxFacts.
Variable A : Type.
Variable key : A -> float.


(** [min], likewise, with the order reversed. *)
Lemma min_from_first best l :
  Forall (fun x => PrimFloat.is_nan (key x) = false) (best :: l) ->
  exists pre post,
    best :: l = pre ++ min_from key best l :: post
    /\ Forall (fun x => (key (min_from key best l) <? key x)%float = true) pre
    /\ Forall (fun x => (key (min_from key best l) <=? key x)%float = true) post.
Proof.
  revert best. induction l as [|x l IH]; intros best Hnan.
  - exists [], []. cbn. auto.
  - inversion Hnan as [|? ? Hb Hl]; subst.
    inversion Hl as [|? ? Hx Hl']; subst.
    cbn [min_from]. destruct (key x <? key best)%float eqn:E.
    + destruct (IH x Hl) as (pre & post & Heq & Hpre & Hpost).
      exists (best :: pre), post. rewrite <- app_comm_cons, <- Heq.
      split; [reflexivity|]. split; [|exact Hpost].
      constructor; [|exact Hpre].
      destruct pre as [|y pre]; cbn in Heq; injection Heq as Hy _.
      * rewrite <- Hy. exact E.
      * subst y. inversion Hpre; subst.
        apply fl_leb_ltb_trans with (key x); [|exact E].
        apply fl_ltb_leb. assumption.
    + assert (Hxb : (key best <=? key x)%float = true)
        by (apply fl_ltb_false; assumption).
      destruct (IH best (Forall_cons _ Hb Hl')) as (pre & post & Heq & Hpre & Hpost).
      set (m := min_from key best l) in *. clearbody m.
      destruct pre as [|y pre]; cbn in Heq; injection Heq as Hy Hrest.
      * subst m l. exists [], (x :: post).
        split; [reflexivity|]. split; [constructor|].
        constructor; [exact Hxb | exact Hpost].
      * subst y l. exists (best :: x :: pre), post.
        split; [reflexivity|]. split; [|exact Hpost].
        inversion Hpre; subst.
        constructor; [assumption|]. constructor; [|assumption].
        apply fl_ltb_leb_trans with (key best); assumption.
Qed.

(** Whatever the keys are, NaN included: the result is an item of the
    list and no item has a key greater (smaller) than its key. *)
Lemma max_from_maximal l : forall best,
  (max_from key best l = best
   \/ (key best <? key (max_from key best l))%float = true)
  /\ In (max_from key best l) (best :: l)
  /\ forall x, In x (best :: l) ->
               (key (max_from key best l) <? key x)%float = false.
Proof.
  induction l as [|x l IH]; intros best.
  - cbn. split; [auto|]. split; [auto|].
    intros y [<-|[]]. destruct (key best <? key best)%float eqn:E; [|reflexivity].
    rewrite FloatAxioms.ltb_spec in E. unfold SFltb in E.
    destruct (Prim2SF (key best)) as [[]|[]| |[] m e]; cbn in E;
      rewrite ?Z.compare_refl, ?Pos.compare_cont_refl in E; discriminate.
  - cbn [max_from]. destruct (key best <? key x)%float eqn:E.
    + destruct (IH x) as (Hchain & Hin & Hmax).
      set (m := max_from key x l) in *. clearbody m.
      assert (Hbm : (key best <? key m)%float = true).
      { destruct Hchain as [->|H]; [exact E|].
        apply fl_ltb_trans with (key x); assumption. }
      split; [auto|]. split; [right; exact Hin|].
      intros y [<-|Hy]; [|auto].
      destruct (key m <? key best)%float eqn:E'; [|reflexivity].
      pose proof (fl_ltb_trans _ _ _ E' E) as H.
      rewrite (Hmax x (or_introl eq_refl)) in H. discriminate.
    + destruct (IH best) as (Hchain & Hin & Hmax).
      set (m := max_from key best l) in *. clearbody m.
      split; [exact Hchain|].
      split; [destruct Hin as [Hin|Hin]; [left|right; right]; exact Hin|].
      intros y [<-|[<-|Hy]]; [apply Hmax; left; reflexivity| |apply Hmax; right; exact Hy].
      destruct Hchain as [->|H]; [exact E|].
      destruct (key m <? key x)%float eqn:E'; [|reflexivity].
      rewrite (fl_ltb_trans _ _ _ H E') in E. discriminate.
Qed.

Lemma min_from_minimal l : forall best,
  (min_from key best l = best
   \/ (key (min_from key best l) <? key best)%float = true)
  /\ In (min_from key best l) (best :: l)
  /\ forall x, In x (best :: l) ->
               (key x <? key (min_from key best l))%float = false.
Proof.
  induction l as [|x l IH]; intros best.
  - cbn. split; [auto|]. split; [auto|].
    intros y [<-|[]]. destruct (key best <? key best)%float eqn:E; [|reflexivity].
    rewrite FloatAxioms.ltb_spec in E. unfold SFltb in E.
    destruct (Prim2SF (key best)) as [[]|[]| |[] m e]; cbn in E;
      rewrite ?Z.compare_refl, ?Pos.compare_cont_refl in E; discriminate.
  - cbn [min_from]. destruct (key x <? key best)%float eqn:E.
    + destruct (IH x) as (Hchain & Hin & Hmin).
      set (m := min_from key x l) in *. clearbody m.
      assert (Hbm : (key m <? key best)%float = true).
      { destruct Hchain as [->|H]; [exact E|].
        apply fl_ltb_trans with (key x); assumption. }
      split; [auto|]. split; [right; exact Hin|].
      intros y [<-|Hy]; [|auto].
      destruct (key best <? key m)%float eqn:E'; [|reflexivity].
      pose proof (fl_ltb_trans _ _ _ E E') as H.
      rewrite (Hmin x (or_introl eq_refl)) in H. discriminate.
    + destruct (IH best) as (Hchain & Hin & Hmin).
      set (m := min_from key best l) in *. clearbody m.
      split; [exact Hchain|].
      split; [destruct Hin as [Hin|Hin]; [left|right; right]; exact Hin|].
      intros y [<-|[<-|Hy]]; [apply Hmin; left; reflexivity| |apply Hmin; right; exact Hy].
      destruct Hchain as [->|H]; [exact E|].
      destruct (key x <? key m)%float eqn:E'; [|reflexivity].
      rewrite (fl_ltb_trans _ _ _ E' H) in E. discriminate.
Qed.

End MinMaxFacts.


(* ================================================================== *)
(** * lecture_3: averages, statistics and the top performer *)
(* ================================================================== *)

Module Lecture3Stats.
Import Lecture3.

Lemma calculate_average_mean grades :
  grades <> [] -> calculate_average grades = Some (arithmetic_mean grades).
Proof. destruct grades; [congruence | reflexivity]. Qed.

Lemma calculate_average_has_grades s :
  calculate_average (grades s)
  = if has_grades s then Some (arithmetic_mean (grades s)) else None.
Proof. unfold has_grades. destruct (grades s); reflexivity. Qed.

(** The loop of [calculate_summary_statistics] collects the averages
    of the students that have grades, in roster order. *)
Lemma collect_averages students acc :
  fold_left collect_average students acc = acc ++ student_averages students.
Proof.
  revert acc. induction students as [|s students IH]; intros acc.
  - cbn. rewrite app_nil_r. reflexivity.
  - cbn [fold_left]. rewrite IH. unfold collect_average, student_averages.
    rewrite calculate_average_has_grades. cbn [filter].
    destruct (has_grades s); cbn [List.map]; [|reflexivity].
    rewrite <- app_assoc. reflexivity.
Qed.

Lemma student_averages_nil students :
  student_averages students = [] <-> existsb has_grades students = false.
Proof.
  unfold student_averages. induction students as [|s students IH]; cbn.
  - tauto.
  - destruct (has_grades s); cbn; [split; discriminate | exact IH].
Qed.

Lemma validate_grade_nonneg g : validate_grade g = true -> fl_nonneg g = true.
Proof.
  unfold validate_grade, fl_nonneg. intros H. apply andb_prop in H.
  destruct H as [H _]. rewrite FloatAxioms.leb_spec, Prim2SF_zero in H.
  destruct (Prim2SF g) as [|[]| |[] ? ?]; try reflexivity;
    cbv in H; discriminate H.
Qed.

(** The average of grades that passed [validate_grade] is a number. *)
Lemma arithmetic_mean_not_nan grades :
  grades <> [] -> grades_ok grades = true ->
  PrimFloat.is_nan (arithmetic_mean grades) = false.
Proof.
  unfold grades_ok, arithmetic_mean. intros Hne Hok.
  apply andb_prop in Hok. destruct Hok as [Hval Hlen].
  apply fl_div_len; [| destruct grades; [congruence | cbn; lia] | exact Hlen].
  apply py_sum_not_nan. rewrite forallb_forall in Hval.
  apply Forall_forall. intros g Hg. apply validate_grade_nonneg. auto.
Qed.

Lemma student_averages_not_nan students :
  roster_grades_ok students = true ->
  Forall (fun a => PrimFloat.is_nan a = false) (student_averages students).
Proof.
  unfold roster_grades_ok, student_averages. intros Hok.
  rewrite forallb_forall in Hok. apply Forall_forall. intros a Ha.
  apply in_map_iff in Ha. destruct Ha as (s & <- & Hs).
  apply filter_In in Hs. destruct Hs as [Hs Hg].
  apply arithmetic_mean_not_nan; [|auto].
  unfold has_grades in Hg. destruct (grades s); congruence.
Qed.

(** C6. For every list of grades, [calculate_average] returns the
    arithmetic mean (the sum divided by the length, as Python computes
    them on floats) when the list is not empty, and [None] exactly
    when it is empty. *)
Theorem calculate_average_is_mean (grades : list float) :
  (calculate_average grades = None <-> grades = [])
  /\ (grades <> [] ->
      calculate_average grades
      = Some (py_sum grades / float_of_len (List.length grades))%float)
  /\ calculate_average [85; 95]%float = Some 90%float
  /\ calculate_average [87.5]%float = Some 87.5%float.
Proof.
  split; [|split].
  - destruct grades; cbn; split; congruence.
  - apply calculate_average_mean.
  - split; vm_compute; reflexivity.
Qed.

Lemma calculate_average_is_mean_witness :
  calculate_average [80; 90]%float
  = Some (py_sum [80; 90] / float_of_len 2)%float.
Proof.
  apply (proj1 (proj2 (calculate_average_is_mean [80; 90]%float))).
  discriminate.
Defined.

(** C1. For every roster: when at least one student has grades,
    [highest] and [lowest] are two of the per-student averages (the
    averages of the students with grades), no average is greater than
    [highest], none is smaller than [lowest], and [overall] is the
    arithmetic mean of these averages, not of the grades.  When the
    grades are those that the program records (each passed
    [validate_grade]) the averages are numbers, so [highest] is their
    maximum and [lowest] their minimum in the order [<=].  When no
    student has a grade, the three fields are [None]. *)
Theorem summary_statistics_of_averages (students : list Student) :
  let averages := student_averages students in
  let statistics := calculate_summary_statistics students in
  (existsb has_grades students = false
   /\ statistics = {| highest := None; lowest := None; overall := None |})
  \/
  (existsb has_grades students = true
   /\ exists h l,
       highest statistics = Some h /\ lowest statistics = Some l
       /\ overall statistics = Some (arithmetic_mean averages)
       /\ In h averages /\ In l averages
       /\ (forall a, In a averages ->
             (h <? a)%float = false /\ (a <? l)%float = false)
       /\ (roster_grades_ok students = true ->
           forall a, In a averages ->
             (a <=? h)%float = true /\ (l <=? a)%float = true)).
Proof.
  intros averages statistics. subst statistics.
  unfold calculate_summary_statistics. rewrite collect_averages. cbn [app].
  fold averages.
  pose proof (student_averages_not_nan students) as Hnan.
  pose proof (student_averages_nil students) as Hnil. fold averages in Hnan, Hnil.
  destruct (existsb has_grades students).
  - right. split; [reflexivity|].
    destruct averages as [|first others];
      [destruct Hnil as [Hnil _]; discriminate (Hnil eq_refl)|].
    destruct (max_from_maximal float (fun avg => avg) others first)
      as (_ & Hin & Hmax).
    destruct (min_from_minimal float (fun avg => avg) others first)
      as (_ & Hin' & Hmin).
    eexists; eexists. cbn [highest lowest overall].
    split; [reflexivity|]. split; [reflexivity|]. split; [reflexivity|].
    split; [exact Hin|]. split; [exact Hin'|]. split.
    + intros a Ha. split; [apply Hmax | apply Hmin]; exact Ha.
    + intros Hok a Ha. specialize (Hnan Hok). rewrite Forall_forall in Hnan.
      split; apply fl_ltb_false; auto.
  - left. split; [reflexivity|].
    destruct Hnil as [_ Hnil]. rewrite (Hnil eq_refl). reflexivity.
Qed.

(** The example of the specification: averages 80 and 90 give
    highest 90, lowest 80, overall 85. *)
Lemma summary_statistics_of_averages_witness :
  Forall (fun a => (a <=? 90)%float = true /\ (80 <=? a)%float = true)
         (student_averages roster_80_90).
Proof.
  destruct (summary_statistics_of_averages roster_80_90)
    as [[Hnone _]|(_ & h & l & Hh & Hl & _ & _ & _ & _ & Hle)];
    [discriminate Hnone|].
  injection Hh as <-. injection Hl as <-.
  apply Forall_forall. exact (Hle eq_refl).
Defined.

Example summary_80_90 :
  calculate_summary_statistics roster_80_90
  = {| highest := Some 90%float; lowest := Some 80%float;
       overall := Some 85%float |}.
Proof. vm_compute. reflexivity. Qed.

(** [overall] is the mean of the averages, not of the grades: one
    student with 100, one with 0 and 0. *)
Example overall_is_not_mean_of_grades :
  let students :=
    [ {| name := lit "Ann"; grades := [100]%float |};
      {| name := lit "Bob"; grades := [0; 0]%float |} ] in
  overall (calculate_summary_statistics students) = Some 50%float
  /\ arithmetic_mean (flat_map grades students) <> 50%float.
Proof.
  split; [vm_compute; reflexivity|]. vm_compute. intros H.
  apply (f_equal (fun x => (x <? 50)%float)) in H. vm_compute in H.
  discriminate H.
Qed.

Lemma top_key_mean s :
  has_grades s = true ->
  top_key s = (if arithmetic_mean (grades s) =? 0 then 0
               else arithmetic_mean (grades s))%float.
Proof.
  intros H. unfold top_key. rewrite calculate_average_has_grades, H.
  reflexivity.
Qed.

Lemma filter_has_grades_nil students :
  filter has_grades students = [] <-> existsb has_grades students = false.
Proof.
  induction students as [|s students IH]; cbn; [tauto|].
  destruct (has_grades s); cbn; [split; discriminate | exact IH].
Qed.



(** The example of the specification, with a tie added: of the
    averages 70, 95 and 95 the first 95 is returned. *)
Example top_performer_70_95_95 :
  find_top_performer_data roster_70_95_95
  = (Some {| name := lit "Bob"; grades := [95]%float |}, Some 95%float).
Proof. vm_compute. reflexivity. Qed.

End Lecture3Stats.

(* ================================================================== *)
(** * lecture_3: the menu handlers *)
(* ================================================================== *)

Module Lecture3Handlers.
Import Lecture3.

Section Handlers.
Context {rt : PyRuntime}.

(** ** Names *)

Lemma is_duplicate_student_exists students name :
  is_duplicate_student students name = true
  <-> exists s, In s students /\ str_lower (Lecture3.name s) = str_lower name.
Proof.
  unfold is_duplicate_student, same_name. rewrite existsb_exists.
  split; intros (s & Hs & H); exists s; split; auto; apply str_eqb_eq; exact H.
Qed.

Lemma is_duplicate_student_none students name :
  is_duplicate_student students name = false
  <-> forall s, In s students -> str_lower (Lecture3.name s) <> str_lower name.
Proof.
  split.
  - intros H s Hs Heq.
    assert (is_duplicate_student students name = true)
      by (apply is_duplicate_student_exists; eauto).
    congruence.
  - intros H. destruct (is_duplicate_student students name) eqn:E; [|reflexivity].
    apply is_duplicate_student_exists in E. destruct E as (s & Hs & Heq).
    destruct (H s Hs Heq).
Qed.

(** [find_student_by_name] finds a student exactly when
    [is_duplicate_student] holds, and what it finds is a position of
    the roster. *)
Lemma find_student_by_name_bound students name i :
  find_student_by_name students name = Some i -> (i < List.length students)%nat.
Proof.
  revert i. induction students as [|s students IH]; intros i; cbn.
  - discriminate.
  - destruct (same_name s name).
    + intros H. injection H as <-. lia.
    + destruct (find_student_by_name students name) as [j|]; cbn; [|discriminate].
      intros H. injection H as <-. specialize (IH j eq_refl). lia.
Qed.

(** The three ways [add_student] ends on a line. *)
Lemma add_student_invalid students line rest :
  str_isalpha (get_student_name_input line) = false ->
  add_student students (line :: rest)
  = {| roster := students;
       printed := [lit "Error: Name should consist only of letters"];
       unread := rest; raised := false |}.
Proof.
  intros H. unfold add_student, validate_student_name. rewrite H. reflexivity.
Qed.

Lemma add_student_duplicate students line rest :
  str_isalpha (get_student_name_input line) = true ->
  is_duplicate_student students (get_student_name_input line) = true ->
  add_student students (line :: rest)
  = {| roster := students;
       printed := [lit "Error: Student '" ++ get_student_name_input line
                     ++ lit "' already exists!"];
       unread := rest; raised := false |}.
Proof.
  intros H1 H2. unfold add_student, validate_student_name.
  rewrite H1, H2. reflexivity.
Qed.

Lemma add_student_new students line rest :
  str_isalpha (get_student_name_input line) = true ->
  is_duplicate_student students (get_student_name_input line) = false ->
  add_student students (line :: rest)
  = {| roster := students ++ [create_new_student (get_student_name_input line)];
       printed := [lit "Success: Student '" ++ get_student_name_input line
                     ++ lit "' added successfully!"];
       unread := rest; raised := false |}.
Proof.
  intros H1 H2. unfold add_student, validate_student_name.
  rewrite H1, H2. reflexivity.
Qed.

(** C4. For every roster and every name entered (the line read, with
    the blanks around it stripped, as [get_student_name_input] returns
    it): [add_student] rejects the name, printing an error and leaving
    the roster as it was, exactly when the name is not purely alphabetic
    or the lowered name of some student of the roster equals its lowered
    form; otherwise it appends a student with that name and no grade.
    Adding "John" and then "john" rejects the second as a duplicate. *)
Theorem add_student_rejects_or_appends
  (students : list Student) (line : str) (rest : list str) :
  let name := get_student_name_input line in
  let o := add_student students (line :: rest) in
  ( ( (str_isalpha name = false
       \/ exists s, In s students
                    /\ str_lower (Lecture3.name s) = str_lower name)
      /\ roster o = students
      /\ (printed o = [lit "Error: Name should consist only of letters"]
          \/ printed o
             = [lit "Error: Student '" ++ name ++ lit "' already exists!"]) )
    \/
    ( str_isalpha name = true
      /\ (forall s, In s students
                    -> str_lower (Lecture3.name s) <> str_lower name)
      /\ roster o = students ++ [{| name := name; grades := [] |}]
      /\ printed o
         = [lit "Success: Student '" ++ name ++ lit "' added successfully!"] ) )
  /\ unread o = rest /\ raised o = false
  /\ (let first := add_student [] [lit "John"] in
      let second := add_student (roster first) [lit "john"] in
      roster first = [{| name := lit "John"; grades := [] |}]
      /\ roster second = roster first
      /\ printed second = [lit "Error: Student 'john' already exists!"]).
Proof.
  intros name o. subst o.
  destruct (str_isalpha name) eqn:Ha.
  - destruct (is_duplicate_student students name) eqn:Hd.
    + rewrite (add_student_duplicate students line rest Ha Hd). cbn.
      split; [left|auto].
      split; [right; apply is_duplicate_student_exists; exact Hd|]. auto.
    + rewrite (add_student_new students line rest Ha Hd). cbn.
      split; [right|auto].
      split; [reflexivity|]. split; [|auto].
      apply is_duplicate_student_none. exact Hd.
  - rewrite (add_student_invalid students line rest Ha). cbn.
    split; [left; auto|auto].
Qed.

(** The blanks around the line read are not part of the name. *)
Example add_student_strips_blanks :
  roster (add_student [] [lit "  John "])
  = [{| name := lit "John"; grades := [] |}].
Proof. reflexivity. Qed.

(** ** Grades *)

Lemma append_grade_length students i g :
  List.length (append_grade students i g) = List.length students.
Proof.
  revert i. induction students as [|s students IH]; intros [|i]; cbn; auto.
Qed.

Lemma append_grade_names students i g :
  List.map Lecture3.name (append_grade students i g)
  = List.map Lecture3.name students.
Proof.
  revert i. induction students as [|s students IH]; intros [|i]; cbn;
    try rewrite IH; reflexivity.
Qed.

Lemma append_grade_same students i g :
  (i < List.length students)%nat ->
  student_grades (append_grade students i g) i = student_grades students i ++ [g].
Proof.
  unfold student_grades.
  revert i. induction students as [|s students IH]; intros [|i] H; cbn in *;
    try lia; try reflexivity.
  apply IH. lia.
Qed.

Lemma append_grade_other students i j g :
  i <> j -> nth_error (append_grade students i g) j = nth_error students j.
Proof.
  revert i j. induction students as [|s students IH]; intros [|i] [|j] H; cbn;
    try reflexivity; try congruence.
  apply IH. congruence.
Qed.

Lemma append_grades_names students i gs :
  List.map Lecture3.name (append_grades students i gs)
  = List.map Lecture3.name students.
Proof.
  unfold append_grades. revert students.
  induction gs as [|g gs IH]; intros students; cbn; [reflexivity|].
  rewrite IH. apply append_grade_names.
Qed.

Lemma append_grades_same students i gs :
  (i < List.length students)%nat ->
  student_grades (append_grades students i gs) i = student_grades students i ++ gs.
Proof.
  unfold append_grades. revert students.
  induction gs as [|g gs IH]; intros students H; cbn.
  - rewrite app_nil_r. reflexivity.
  - rewrite IH by (rewrite append_grade_length; exact H).
    rewrite append_grade_same by exact H. rewrite <- app_assoc. reflexivity.
Qed.

Lemma append_grades_other students i j gs :
  i <> j -> nth_error (append_grades students i gs) j = nth_error students j.
Proof.
  unfold append_grades. revert students.
  induction gs as [|g gs IH]; intros students H; cbn; [reflexivity|].
  rewrite IH by exact H. apply append_grade_other. exact H.
Qed.

(** One turn of the grade loop on a line that is not "done". *)
Lemma grade_loop_step students i added out line rest :
  is_done line = false ->
  grade_loop students i added out (line :: rest)
  = match accepted_grade line with
    | Some g =>
        grade_loop (append_grade students i g) i (S added)
                   (out ++ [grade_message line]) rest
    | None =>
        grade_loop students i added (out ++ [grade_message line]) rest
    end.
Proof.
  unfold is_done, accepted_grade, grade_message. cbn [grade_loop].
  destruct (get_grade_input line) as [grade_input grade]. cbn [fst snd].
  intros ->. destruct grade as [g|]; [|reflexivity].
  destruct (validate_grade g); reflexivity.
Qed.

Lemma grade_loop_done students i added out line rest :
  is_done line = true ->
  grade_loop students i added out (line :: rest)
  = ({| roster := students; printed := out; unread := rest; raised := false |},
     added).
Proof.
  unfold is_done. cbn [grade_loop].
  destruct (get_grade_input line) as [grade_input grade]. cbn [fst].
  intros ->. reflexivity.
Qed.

(** The whole loop, on grade inputs closed by "done". *)
Lemma grade_loop_run lines : forall students i added out stop rest,
  forallb (fun l => negb (is_done l)) lines = true ->
  is_done stop = true ->
  grade_loop students i added out (lines ++ stop :: rest)
  = ({| roster := append_grades students i (accepted_grades lines);
        printed := out ++ List.map grade_message lines;
        unread := rest; raised := false |},
     (added + List.length (accepted_grades lines))%nat).
Proof.
  induction lines as [|line lines IH]; intros students i added out stop rest Hl Hs.
  - cbn [app]. rewrite (grade_loop_done _ _ _ _ _ _ Hs). cbn.
    rewrite app_nil_r, Nat.add_0_r. reflexivity.
  - cbn [forallb] in Hl. apply andb_prop in Hl. destruct Hl as [Hl1 Hl2].
    apply negb_true_iff in Hl1. cbn [app].
    rewrite (grade_loop_step _ _ _ _ _ _ Hl1). cbn [accepted_grades List.map].
    destruct (accepted_grade line) as [g|]; rewrite IH by assumption;
      rewrite <- app_assoc; cbn [app List.length]; try reflexivity.
    rewrite Nat.add_succ_r. reflexivity.
Qed.

(** The loop on a console that ends before "done": [EOFError], with the
    grades accepted so far recorded. *)
Lemma grade_loop_eof lines : forall students i added out,
  forallb (fun l => negb (is_done l)) lines = true ->
  grade_loop students i added out lines
  = ({| roster := append_grades students i (accepted_grades lines);
        printed := out ++ List.map grade_message lines;
        unread := []; raised := true |},
     (added + List.length (accepted_grades lines))%nat).
Proof.
  induction lines as [|line lines IH]; intros students i added out Hl.
  - cbn. rewrite app_nil_r, Nat.add_0_r. reflexivity.
  - cbn [forallb] in Hl. apply andb_prop in Hl. destruct Hl as [Hl1 Hl2].
    apply negb_true_iff in Hl1.
    rewrite (grade_loop_step _ _ _ _ _ _ Hl1). cbn [accepted_grades List.map].
    destruct (accepted_grade line) as [g|]; rewrite IH by assumption;
      rewrite <- app_assoc; cbn [app List.length]; try reflexivity.
    rewrite Nat.add_succ_r. reflexivity.
Qed.

(** Every console is grade inputs followed by "done" or by its end. *)
Lemma split_at_done (inputs : list str) :
  exists lines,
    forallb (fun l => negb (is_done l)) lines = true
    /\ (inputs = lines
        \/ exists stop rest, is_done stop = true /\ inputs = lines ++ stop :: rest).
Proof.
  induction inputs as [|line inputs (lines & Hl & IH)].
  - exists []. auto.
  - destruct (is_done line) eqn:E.
    + exists []. split; [reflexivity|]. right. exists line, inputs. auto.
    + exists (line :: lines). cbn [forallb]. rewrite E, Hl.
      split; [reflexivity|]. destruct IH as [->|(stop & rest & Hs & ->)].
      * left. reflexivity.
      * right. exists stop, rest. auto.
Qed.

(** What a grade input is: accepted with its value, or rejected with
    one of the two errors. *)
Lemma accepted_grade_cases line :
  (exists g, snd (get_grade_input line) = Some g /\ validate_grade g = true
             /\ accepted_grade line = Some g
             /\ grade_message line
                = lit "Success: Grade " ++ float_repr g ++ lit " added!")
  \/ (snd (get_grade_input line) = None /\ accepted_grade line = None
      /\ grade_message line
         = lit "Error: Invalid input! Please enter a number or 'done'.")
  \/ (exists g, snd (get_grade_input line) = Some g /\ validate_grade g = false
                /\ accepted_grade line = None
                /\ grade_message line
                   = lit "Error: Grade must be between 0 and 100!").
Proof.
  unfold accepted_grade, grade_message.
  destruct (snd (get_grade_input line)) as [g|]; [|auto].
  destruct (validate_grade g) eqn:E; [left|right; right]; exists g; auto.
Qed.

(** On any console the loop records the grades accepted before "done",
    or before the end of the console. *)
Lemma grade_loop_roster students i grades_added out inputs :
  exists lines rest,
    forallb (fun l => negb (is_done l)) lines = true
    /\ (inputs = lines \/ exists stop, is_done stop = true
                                      /\ inputs = lines ++ stop :: rest)
    /\ roster (fst (grade_loop students i grades_added out inputs))
       = append_grades students i (accepted_grades lines)
    /\ snd (grade_loop students i grades_added out inputs)
       = (grades_added + List.length (accepted_grades lines))%nat.
Proof.
  destruct (split_at_done inputs) as (lines & Hl & [->|(stop & rest & Hs & ->)]).
  - exists lines, []. rewrite (grade_loop_eof lines _ _ _ _ Hl). cbn. auto.
  - exists lines, rest. rewrite (grade_loop_run lines _ _ _ _ _ _ Hl Hs). cbn.
    split; [exact Hl|]. split; [right; exists stop; auto|]. auto.
Qed.

Lemma add_grades_to_student_run students i lines stop rest :
  forallb (fun l => negb (is_done l)) lines = true ->
  is_done stop = true ->
  add_grades_to_student students i (lines ++ stop :: rest)
  = let after := append_grades students i (accepted_grades lines) in
    {| roster := after;
       printed :=
         [ 10%N :: lit "Adding grades for " ++ student_name students i;
           lit "Enter grades (0-100) or 'done' to finish:" ]
         ++ List.map grade_message lines
         ++ [ lit "Completed: "
                ++ decimal_of_Z (Z.of_nat (List.length (accepted_grades lines)))
                ++ lit " grades added for " ++ student_name after i
                ++ lit ". Total grades: "
                ++ decimal_of_Z (Z.of_nat (List.length (student_grades after i))) ];
       unread := rest; raised := false |}.
Proof.
  intros Hl Hs. unfold add_grades_to_student.
  rewrite (grade_loop_run lines students i 0 _ stop rest Hl Hs).
  cbn [raised roster printed unread Nat.add]. rewrite <- app_assoc. reflexivity.
Qed.

(** C5. For every student of the roster and every sequence of grade
    inputs closed by "done": an input is rejected, with an error printed
    and nothing recorded, exactly when [float] does not convert it or
    its value is outside [0, 100]; every other input has its value
    appended to the grades of the student, in order, and counted in the
    number of grades that the closing line reports; the other students
    are untouched.  The input "105" is rejected, and after "87.5" is
    added to a student without grades the report shows the average
    87.50. *)
Theorem add_grades_to_student_accepts_valid_numbers
  (students : list Student) (i : nat) (lines : list str) (stop : str)
  (rest : list str) :
  (i < List.length students)%nat ->
  forallb (fun l => negb (is_done l)) lines = true ->
  is_done stop = true ->
  let o := add_grades_to_student students i (lines ++ stop :: rest) in
  let added := accepted_grades lines in
  student_grades (roster o) i = student_grades students i ++ added
  /\ (forall j, j <> i -> nth_error (roster o) j = nth_error students j)
  /\ List.map Lecture3.name (roster o) = List.map Lecture3.name students
  /\ printed o
     = [ 10%N :: lit "Adding grades for " ++ student_name students i;
         lit "Enter grades (0-100) or 'done' to finish:" ]
       ++ List.map grade_message lines
       ++ [ lit "Completed: " ++ decimal_of_Z (Z.of_nat (List.length added))
              ++ lit " grades added for " ++ student_name students i
              ++ lit ". Total grades: "
              ++ decimal_of_Z
                   (Z.of_nat (List.length (student_grades students i ++ added))) ]
  /\ unread o = rest /\ raised o = false
  /\ (forall line,
        (exists g, snd (get_grade_input line) = Some g
                   /\ (0 <=? g)%float && (g <=? 100)%float = true
                   /\ accepted_grade line = Some g
                   /\ grade_message line
                      = lit "Success: Grade " ++ float_repr g ++ lit " added!")
        \/ (snd (get_grade_input line) = None /\ accepted_grade line = None
            /\ grade_message line
               = lit "Error: Invalid input! Please enter a number or 'done'.")
        \/ (exists g, snd (get_grade_input line) = Some g
                      /\ (0 <=? g)%float && (g <=? 100)%float = false
                      /\ accepted_grade line = None
                      /\ grade_message line
                         = lit "Error: Grade must be between 0 and 100!"))
  /\ (let ann := [{| name := lit "Ann"; grades := [] |}] in
      let session :=
        add_grades_to_student ann 0 [lit "105"; lit "87.5"; lit "done"] in
      accepted_grade (lit "105") = None
      /\ grade_message (lit "105")
         = lit "Error: Grade must be between 0 and 100!"
      /\ roster session = [{| name := lit "Ann"; grades := [87.5]%float |}]
      /\ display_student_report (roster session)
         = [lit "Ann's average grade is 87.50"]).
Proof.
  intros Hi Hl Hs o added. subst o.
  rewrite (add_grades_to_student_run students i lines stop rest Hl Hs).
  cbn zeta. cbn [roster printed unread raised]. fold added.
  assert (Hname : student_name (append_grades students i added) i
                  = student_name students i).
  { unfold student_name.
    pose proof (append_grades_names students i added) as Hn.
    apply (f_equal (fun l => nth_error l i)) in Hn.
    rewrite !nth_error_map in Hn.
    destruct (nth_error (append_grades students i added) i),
      (nth_error students i); cbn in Hn; congruence. }
  rewrite Hname, (append_grades_same students i added Hi).
  split; [reflexivity|].
  split; [intros j Hj; apply append_grades_other; congruence|].
  split; [apply append_grades_names|].
  split; [reflexivity|]. split; [reflexivity|]. split; [reflexivity|].
  split; [exact accepted_grade_cases|].
  vm_compute. auto.
Qed.

(** ** The rejected operations *)

(** [add_grades] hands the loop a student of the roster: the first
    whose lowered name is the lowered name entered. *)
Lemma add_grades_found students line rest i :
  find_student_by_name students (get_student_name_input line) = Some i ->
  (i < List.length students)%nat
  /\ add_grades students (line :: rest) = add_grades_to_student students i rest.
Proof.
  intros H. split; [exact (find_student_by_name_bound _ _ _ H)|].
  unfold add_grades. destruct students as [|s students]; [discriminate H|].
  rewrite H. reflexivity.
Qed.

Lemma add_grades_not_found students line rest :
  students <> [] ->
  find_student_by_name students (get_student_name_input line) = None ->
  add_grades students (line :: rest)
  = {| roster := students;
       printed := [lit "Error: Student '" ++ get_student_name_input line
                     ++ lit "' not found!"];
       unread := rest; raised := false |}.
Proof.
  intros Hne H. unfold add_grades. destruct students; [congruence|].
  rewrite H. reflexivity.
Qed.

Lemma rejected_grade line :
  (snd (get_grade_input line) = None
   \/ exists g, snd (get_grade_input line) = Some g /\ validate_grade g = false) ->
  accepted_grade line = None.
Proof.
  unfold accepted_grade. intros [->|(g & -> & ->)]; reflexivity.
Qed.

(** C10. Every rejected operation leaves the roster exactly as it was:
    [add_student] on a name that is not alphabetic or is a duplicate;
    [add_grades] on an empty roster, or on a name that matches no
    student; and, in the grade loop, an input that [float] does not
    convert or whose value is outside [0, 100]: the loop goes on from
    the same roster and the same count, and if the console ends there
    the roster that is left is that one. *)
Theorem rejected_operations_keep_roster (students : list Student) :
  (forall line rest,
      str_isalpha (get_student_name_input line) = false
      \/ is_duplicate_student students (get_student_name_input line) = true ->
      roster (add_student students (line :: rest)) = students)
  /\ (forall inputs, roster (add_grades [] inputs) = [])
  /\ (forall line rest,
        find_student_by_name students (get_student_name_input line) = None ->
        roster (add_grades students (line :: rest)) = students)
  /\ (forall i grades_added out line rest,
        is_done line = false ->
        (snd (get_grade_input line) = None
         \/ exists g, snd (get_grade_input line) = Some g
                      /\ validate_grade g = false) ->
        grade_loop students i grades_added out (line :: rest)
        = grade_loop students i grades_added (out ++ [grade_message line]) rest
        /\ grade_loop students i grades_added out [line]
           = ({| roster := students; printed := out ++ [grade_message line];
                 unread := []; raised := true |}, grades_added)
        /\ roster (add_grades_to_student students i [line]) = students).
Proof.
  repeat apply conj.
  - intros line rest [H|H].
    + rewrite (add_student_invalid students line rest H). reflexivity.
    + destruct (str_isalpha (get_student_name_input line)) eqn:Ha.
      * rewrite (add_student_duplicate students line rest Ha H). reflexivity.
      * rewrite (add_student_invalid students line rest Ha). reflexivity.
  - intros inputs. reflexivity.
  - intros line rest H. destruct students as [|s students]; [reflexivity|].
    rewrite add_grades_not_found by (congruence || exact H). reflexivity.
  - intros i grades_added out line rest Hd Hrej.
    pose proof (rejected_grade line Hrej) as Hacc.
    unfold add_grades_to_student.
    rewrite !(grade_loop_step _ _ _ _ _ _ Hd), Hacc.
    repeat split.
Qed.

(** ** The invariant of the roster *)

Lemma names_alphabetic_map students :
  names_alphabetic students
  <-> Forall (fun n => str_isalpha n = true) (List.map Lecture3.name students).
Proof. unfold names_alphabetic. rewrite Forall_map. reflexivity. Qed.

Lemma names_distinct_map students :
  names_distinct students
  <-> NoDup (List.map str_lower (List.map Lecture3.name students)).
Proof. unfold names_distinct. rewrite map_map. reflexivity. Qed.

Lemma NoDup_snoc {A} (l : list A) (x : A) :
  NoDup l -> ~ In x l -> NoDup (l ++ [x]).
Proof.
  induction l as [|y l IH]; intros Hl Hx; cbn.
  - constructor; [intros []|constructor].
  - inversion Hl; subst. constructor.
    + rewrite in_app_iff. cbn. intros [H|[H|[]]]; [auto|].
      subst. apply Hx. left. reflexivity.
    + apply IH; [assumption|]. intros H. apply Hx. right. exact H.
Qed.

Lemma roster_invariant_nil : roster_invariant [].
Proof.
  unfold roster_invariant, names_alphabetic, names_distinct, grades_in_range.
  cbn. repeat split; constructor.
Qed.

Lemma add_student_invariant students inputs :
  roster_invariant students ->
  roster_invariant (roster (add_student students inputs)).
Proof.
  intros Hinv. destruct inputs as [|line rest]; [exact Hinv|].
  destruct (str_isalpha (get_student_name_input line)) eqn:Ha;
    [|rewrite (add_student_invalid _ _ _ Ha); exact Hinv].
  destruct (is_duplicate_student students (get_student_name_input line)) eqn:Hd;
    [rewrite (add_student_duplicate _ _ _ Ha Hd); exact Hinv|].
  rewrite (add_student_new _ _ _ Ha Hd). cbn [roster].
  destruct Hinv as (Hn & Hd' & Hg).
  unfold roster_invariant, names_alphabetic, names_distinct, grades_in_range in *.
  split; [|split].
  - apply Forall_app. split; [exact Hn|]. constructor; [exact Ha|constructor].
  - rewrite map_app. cbn [List.map]. apply NoDup_snoc; [exact Hd'|].
    intros Hin. apply in_map_iff in Hin. destruct Hin as (s & Heq & Hs).
    rewrite is_duplicate_student_none in Hd. exact (Hd s Hs Heq).
  - apply Forall_app. split; [exact Hg|]. constructor; constructor.
Qed.

Lemma append_grade_range students i g :
  validate_grade g = true ->
  grades_in_range students -> grades_in_range (append_grade students i g).
Proof.
  unfold grades_in_range. intros Hg.
  revert i. induction students as [|s students IH]; intros i H.
  - destruct i; constructor.
  - inversion H; subst. destruct i as [|i]; cbn.
    + constructor; [|assumption]. cbn [grades]. apply Forall_app.
      split; [assumption|]. constructor; [exact Hg|constructor].
    + constructor; [assumption|]. apply IH. assumption.
Qed.

Lemma append_grade_invariant students i g :
  validate_grade g = true ->
  roster_invariant students -> roster_invariant (append_grade students i g).
Proof.
  intros Hg (Hn & Hd & Hr). split; [|split].
  - apply names_alphabetic_map. rewrite append_grade_names.
    apply names_alphabetic_map. exact Hn.
  - apply names_distinct_map. rewrite append_grade_names.
    apply names_distinct_map. exact Hd.
  - apply append_grade_range; assumption.
Qed.

Lemma grade_loop_invariant inputs : forall students i grades_added out,
  roster_invariant students ->
  roster_invariant (roster (fst (grade_loop students i grades_added out inputs))).
Proof.
  induction inputs as [|line rest IH]; intros students i grades_added out Hinv.
  - exact Hinv.
  - cbn [grade_loop]. destruct (get_grade_input line) as [grade_input grade].
    destruct (str_eqb grade_input (lit "done")); [exact Hinv|].
    destruct grade as [g|]; [|apply IH; exact Hinv].
    destruct (validate_grade g) eqn:Hg; cbn [negb].
    + apply IH. apply append_grade_invariant; assumption.
    + apply IH. exact Hinv.
Qed.

Lemma add_grades_to_student_invariant students i inputs :
  roster_invariant students ->
  roster_invariant (roster (add_grades_to_student students i inputs)).
Proof.
  intros Hinv. unfold add_grades_to_student.
  pose proof (grade_loop_invariant inputs students i 0
                [10%N :: lit "Adding grades for " ++ student_name students i;
                 lit "Enter grades (0-100) or 'done' to finish:"] Hinv) as H.
  destruct (grade_loop students i 0 _ inputs) as [o grades_added].
  cbn [fst] in H. destruct (raised o); exact H.
Qed.

Lemma add_grades_invariant students inputs :
  roster_invariant students ->
  roster_invariant (roster (add_grades students inputs)).
Proof.
  intros Hinv. unfold add_grades. destruct students as [|s students]; [exact Hinv|].
  destruct inputs as [|line rest]; [exact Hinv|].
  destruct (find_student_by_name (s :: students) (get_student_name_input line));
    [|exact Hinv].
  apply add_grades_to_student_invariant. exact Hinv.
Qed.

Lemma guarded_roster o : roster (guarded o) = roster o.
Proof. unfold guarded. destruct (raised o); reflexivity. Qed.

Lemma menu_turn_invariant students inputs :
  roster_invariant students ->
  roster_invariant (roster (fst (menu_turn students inputs))).
Proof.
  intros Hinv. unfold menu_turn. destruct inputs as [|line rest]; [exact Hinv|].
  repeat match goal with
         | |- context [if ?b then _ else _] => destruct b
         end; cbn [fst roster]; rewrite ?guarded_roster;
    auto using add_student_invariant, add_grades_invariant.
Qed.

Lemma main_loop_invariant turns : forall students out inputs,
  roster_invariant students ->
  roster_invariant (roster (fst (main_loop turns students out inputs))).
Proof.
  induction turns as [|turns IH]; intros students out inputs Hinv.
  - exact Hinv.
  - cbn [main_loop].
    pose proof (menu_turn_invariant students inputs Hinv) as H.
    destruct (menu_turn students inputs) as [o st]. cbn [fst] in H.
    destruct st; [exact H | apply IH; exact H].
Qed.

Lemma main_invariant turns inputs :
  roster_invariant (roster (fst (main turns inputs))).
Proof. apply main_loop_invariant, roster_invariant_nil. Qed.

(** C8. Every roster that the program reaches, after any number of
    turns of the menu on any console (the turns add students, add
    grades, show the report or find the top performer, and a console
    that ends in the middle of a turn leaves the roster of that moment),
    satisfies the invariant: every name is purely alphabetic, the
    lowered names are pairwise different, and every grade passed
    [0 <= grade <= 100]. *)
Theorem reachable_roster_invariant (turns : nat) (inputs : list str) :
  let students := roster (fst (main turns inputs)) in
  Forall (fun s => str_isalpha (Lecture3.name s) = true) students
  /\ NoDup (List.map (fun s => str_lower (Lecture3.name s)) students)
  /\ Forall (fun s =>
               Forall (fun g => (0 <=? g)%float && (g <=? 100)%float = true)
                      (grades s))
            students.
Proof. exact (main_invariant turns inputs). Qed.

(** C9. For every roster, [add_student] rejects the empty name and
    every name with a character that is not a letter, whatever else the
    name holds: the roster is left as it was and the error on letters is
    printed.  The space and the digits are not letters, so "John Smith"
    is rejected, and no roster that the program reaches has a student of
    that name. *)
Theorem add_student_rejects_non_letters
  (students : list Student) (line : str) (rest : list str) :
  let name := get_student_name_input line in
  name = [] \/ (exists c, In c name /\ char_isalpha c = false) ->
  add_student students (line :: rest)
  = {| roster := students;
       printed := [lit "Error: Name should consist only of letters"];
       unread := rest; raised := false |}
  /\ char_isalpha 32%N = false
  /\ (forall c, ascii_isdigit c = true -> char_isalpha c = false)
  /\ roster (add_student students [lit "John Smith"]) = students
  /\ (forall turns inputs,
        ~ In (lit "John Smith")
             (List.map Lecture3.name (roster (fst (main turns inputs))))).
Proof.
  intros name Hname.
  assert (Ha : str_isalpha name = false).
  { destruct (str_isalpha name) eqn:E; [|reflexivity].
    apply str_isalpha_forall in E. destruct E as [Hne Hall].
    destruct Hname as [->|(c & Hc & Hf)]; [congruence|].
    rewrite (Hall c Hc) in Hf. discriminate. }
  split; [apply add_student_invalid; exact Ha|].
  split; [reflexivity|]. split; [|split].
  - intros c Hc. unfold char_isalpha, is_ascii, ascii_isdigit, ascii_isupper,
      ascii_islower in *.
    apply andb_prop in Hc. destruct Hc as [H1 H2].
    apply N.leb_le in H1, H2.
    replace (c <? 128)%N with true by (symmetry; apply N.ltb_lt; lia).
    replace (c <=? 90)%N with true by (symmetry; apply N.leb_le; lia).
    replace (65 <=? c)%N with false by (symmetry; apply N.leb_gt; lia).
    replace (97 <=? c)%N with false by (symmetry; apply N.leb_gt; lia).
    reflexivity.
  - rewrite add_student_invalid by reflexivity. reflexivity.
  - intros turns inputs Hin.
    destruct (main_invariant turns inputs) as (Hn & _ & _).
    apply names_alphabetic_map in Hn. rewrite Forall_forall in Hn.
    specialize (Hn _ Hin). vm_compute in Hn. discriminate Hn.
Qed.

(** ** The grades come from the console *)

Lemma append_grade_total students i g :
  (total_grades (append_grade students i g) <= S (total_grades students))%nat.
Proof.
  unfold total_grades, list_sum.
  revert i. induction students as [|s students IH]; intros [|i]; cbn; try lia.
  - rewrite length_app. cbn. lia.
  - specialize (IH i). lia.
Qed.

#[local] Arguments total_grades : simpl never.

Lemma grade_loop_total inputs : forall students i grades_added out,
  let o := fst (grade_loop students i grades_added out inputs) in
  (total_grades (roster o) + List.length (unread o)
   <= total_grades students + List.length inputs)%nat.
Proof.
  induction inputs as [|line rest IH]; intros students i grades_added out.
  - cbn. lia.
  - cbn zeta. cbn [grade_loop].
    destruct (get_grade_input line) as [grade_input grade].
    destruct (str_eqb grade_input (lit "done")); [cbn; lia|].
    destruct grade as [g|].
    + destruct (validate_grade g); cbn [negb].
      * specialize (IH (append_grade students i g) i (S grades_added)
                      (out ++ [lit "Success: Grade " ++ float_repr g
                                 ++ lit " added!"])).
        pose proof (append_grade_total students i g).
        cbn zeta in IH. cbn [List.length]. lia.
      * specialize (IH students i grades_added
                      (out ++ [lit "Error: Grade must be between 0 and 100!"])).
        cbn zeta in IH. cbn [List.length]. lia.
    + specialize (IH students i grades_added
                    (out ++ [lit "Error: Invalid input! Please enter a number or 'done'."])).
      cbn zeta in IH. cbn [List.length]. lia.
Qed.

Lemma add_grades_to_student_total students i inputs :
  let o := add_grades_to_student students i inputs in
  (total_grades (roster o) + List.length (unread o)
   <= total_grades students + List.length inputs)%nat.
Proof.
  cbn zeta. unfold add_grades_to_student.
  pose proof (grade_loop_total inputs students i 0
                [10%N :: lit "Adding grades for " ++ student_name students i;
                 lit "Enter grades (0-100) or 'done' to finish:"]) as H.
  cbn zeta in H.
  destruct (grade_loop students i 0 _ inputs) as [o grades_added].
  cbn [fst] in H. destruct (raised o); exact H.
Qed.

Lemma total_grades_app a b :
  total_grades (a ++ b) = (total_grades a + total_grades b)%nat.
Proof. unfold total_grades. rewrite map_app, list_sum_app. reflexivity. Qed.

Lemma menu_turn_total students inputs :
  let o := fst (menu_turn students inputs) in
  (total_grades (roster o) + List.length (unread o)
   <= total_grades students + List.length inputs)%nat.
Proof.
  cbn zeta. unfold menu_turn. destruct inputs as [|line rest]; [cbn; lia|].
  repeat match goal with
         | |- context [if str_eqb ?a ?b then _ else _] => destruct (str_eqb a b)
         end; cbn [fst roster unread List.length]; try lia.
  - unfold guarded, add_student. destruct rest as [|name_line rest]; cbn; [lia|].
    repeat match goal with
           | |- context [if ?b then _ else _] => destruct b
           end; cbn; rewrite ?total_grades_app;
      change (total_grades [create_new_student (get_student_name_input name_line)])
        with 0%nat; lia.
  - assert (H : (total_grades (roster (add_grades students rest))
                 + List.length (unread (add_grades students rest))
                 <= total_grades students + List.length rest)%nat).
    { unfold add_grades. destruct students as [|s students]; [cbn; lia|].
      destruct rest as [|name_line rest]; [cbn; lia|].
      destruct (find_student_by_name (s :: students)
                  (get_student_name_input name_line)) as [i|]; [|cbn; lia].
      pose proof (add_grades_to_student_total (s :: students) i rest) as H.
      cbn zeta in H. cbn [List.length]. lia. }
    unfold guarded. destruct (raised (add_grades students rest));
      cbn [roster unread]; lia.
Qed.

Lemma main_loop_total turns : forall students out inputs,
  (total_grades (roster (fst (main_loop turns students out inputs)))
   <= total_grades students + List.length inputs)%nat.
Proof.
  induction turns as [|turns IH]; intros students out inputs.
  - cbn. lia.
  - cbn [main_loop]. pose proof (menu_turn_total students inputs) as H.
    cbn zeta in H. destruct (menu_turn students inputs) as [o st].
    cbn [fst] in H. destruct st; cbn [fst roster]; [lia|].
    specialize (IH (roster o) (out ++ printed o) (unread o)). lia.
Qed.

Lemma grades_length_total students s :
  In s students -> (List.length (grades s) <= total_grades students)%nat.
Proof.
  unfold total_grades, list_sum.
  induction students as [|t students IH]; cbn; [tauto|].
  intros [->|H]; [lia|]. specialize (IH H). lia.
Qed.

(** The rosters that the program reaches from a console of fewer than
    [2^63] lines have the grades lists that the statistics assume. *)
Lemma main_roster_grades_ok turns inputs :
  len_ok (List.length inputs) = true ->
  roster_grades_ok (roster (fst (main turns inputs))) = true.
Proof.
  intros Hlen. unfold roster_grades_ok, grades_ok. apply forallb_forall.
  intros s Hs. apply andb_true_intro.
  destruct (main_invariant turns inputs) as (_ & _ & Hr).
  unfold grades_in_range in Hr. rewrite Forall_forall in Hr. split.
  - apply forallb_forall. apply Forall_forall. exact (Hr s Hs).
  - unfold main in Hs. pose proof (grades_length_total _ s Hs) as H1.
    pose proof (main_loop_total turns [] [lit "Welcome to Student Grade Analyzer!"]
                  inputs) as H2.
    change (total_grades []) with 0%nat in H2.
    unfold len_ok in *. apply Z.ltb_lt in Hlen. apply Z.ltb_lt. lia.
Qed.

End Handlers.

(** The session of the specification: "105" is refused, "87.5" is
    recorded, and the report shows 87.50. *)
Lemma add_grades_to_student_accepts_valid_numbers_witness :
  let o :=
    add_grades_to_student (rt := ascii_runtime)
      [{| name := lit "Ann"; grades := [] |}] 0
      ([lit "105"; lit "abc"; lit " 87.5 "] ++ lit "DONE" :: []) in
  student_grades (roster o) 0 = [87.5]%float
  /\ printed o
     = [ 10%N :: lit "Adding grades for Ann";
         lit "Enter grades (0-100) or 'done' to finish:";
         lit "Error: Grade must be between 0 and 100!";
         lit "Error: Invalid input! Please enter a number or 'done'.";
         lit "Success: Grade " ++ @float_repr ascii_runtime 87.5%float
           ++ lit " added!";
         lit "Completed: 1 grades added for Ann. Total grades: 1" ].
Proof.
  pose proof (add_grades_to_student_accepts_valid_numbers
                (rt := ascii_runtime)
                [{| name := lit "Ann"; grades := [] |}] 0
                [lit "105"; lit "abc"; lit " 87.5 "] (lit "DONE") []
                ltac:(cbn; lia) eq_refl eq_refl) as H.
  cbn zeta in H. destruct H as (Hg & _ & _ & Hp & _).
  split; [exact Hg | exact Hp].
Defined.

Lemma rejected_operations_keep_roster_witness :
  roster (add_student (rt := ascii_runtime)
            [{| name := lit "John"; grades := [] |}] [lit "john"])
  = [{| name := lit "John"; grades := [] |}].
Proof.
  apply (proj1 (rejected_operations_keep_roster (rt := ascii_runtime)
                  [{| name := lit "John"; grades := [] |}])).
  right. reflexivity.
Defined.

Lemma add_student_rejects_non_letters_witness :
  add_student (rt := ascii_runtime) [] [lit "John Smith"]
  = {| roster := [];
       printed := [lit "Error: Name should consist only of letters"];
       unread := []; raised := false |}.
Proof.
  apply (add_student_rejects_non_letters (rt := ascii_runtime)
           [] (lit "John Smith") []).
  right. exists 32%N. split; [vm_compute; tauto | reflexivity].
Defined.

End Lecture3Handlers.

(* ================================================================== *)
(** * lecture_2: the run of [main] *)
(* ================================================================== *)

Module Lecture2Run.
Import Lecture2.

Section Main.
Context {rt : PyRuntime}.

(** [int] skips the blanks of C around a literal. *)
Example int_of_str_blanks :
  int_of_str (9%N :: lit " 2013 " ++ [10%N]) = Some 2013%Z.
Proof. reflexivity. Qed.

(** A literal followed by the separator U+001F is not converted here:
    it is left to the runtime, whole. *)
Example int_of_str_separator :
  int_of_str (lit "2013" ++ [31%N]) = int_of_other (lit "2013" ++ [31%N]).
Proof. reflexivity. Qed.

(** The hobby loop ends exactly on a console with a "stop" line, and
    then it has read the lines before the first such line. *)
Lemma read_hobbies_some inputs : forall acc hs,
  read_hobbies acc inputs = Some hs ->
  exists hobbies stop rest,
    inputs = hobbies ++ stop :: rest
    /\ forallb (fun h => negb (is_stop h)) hobbies = true
    /\ is_stop stop = true
    /\ hs = acc ++ hobbies.
Proof.
  induction inputs as [|line inputs IH]; intros acc hs H; cbn [read_hobbies] in H.
  - discriminate.
  - destruct (str_eqb (str_lower line) (lit "stop")) eqn:E.
    + injection H as <-. exists [], line, inputs. rewrite app_nil_r. auto.
    + destruct (IH _ _ H) as (hobbies & stop & rest & -> & Hh & Hs & ->).
      exists (line :: hobbies), stop, rest. cbn [forallb app]. unfold is_stop at 1.
      rewrite E, Hh, <- app_assoc. auto.
Qed.

Lemma read_hobbies_none inputs : forall acc,
  read_hobbies acc inputs = None <-> existsb is_stop inputs = false.
Proof.
  induction inputs as [|line inputs IH]; intros acc; cbn [read_hobbies existsb].
  - tauto.
  - unfold is_stop at 1. destruct (str_eqb (str_lower line) (lit "stop")); cbn [orb].
    + split; discriminate.
    + apply IH.
Qed.

(** X1. [main] of lecture_2 runs to its end, and prints the whole
    summary of the profile, exactly when the console gives a name, a
    birth year that [int] converts, and later a line that lowers to
    "stop", and the age has a decimal text.  On every other console an
    exception that [main] does not catch ends the run before the
    summary is complete. *)
Theorem main_prints_profile_iff (inputs : list str) :
  main inputs <> None
  <-> exists user_name birth_year_str birth_year later,
        inputs = user_name :: birth_year_str :: later
        /\ int_of_str birth_year_str = Some birth_year
        /\ existsb is_stop later = true
        /\ str_of_int (2025 - birth_year) <> None.
Proof.
  unfold main. split.
  - destruct inputs as [|user_name [|birth_year_str later]]; try congruence.
    destruct (int_of_str birth_year_str) as [birth_year|] eqn:Ei; try congruence.
    destruct (read_hobbies [] later) as [hobbies|] eqn:Eh; try congruence.
    cbn [age]. destruct (str_of_int (2025 - birth_year)) eqn:Es; try congruence.
    intros _. exists user_name, birth_year_str, birth_year, later.
    repeat split; auto; try congruence.
    destruct (existsb is_stop later) eqn:E; [reflexivity|].
    apply (read_hobbies_none later []) in E. congruence.
  - intros (user_name & birth_year_str & birth_year & later & -> & Hi & Hs & Ht).
    rewrite Hi. destruct (read_hobbies [] later) eqn:Eh.
    + cbn [age]. destruct (str_of_int (2025 - birth_year)); congruence.
    + apply read_hobbies_none in Eh. congruence.
Qed.

(** X2. The hobbies of the profile are the lines typed before the first
    line that lowers to "stop", in the order typed and as typed (not
    stripped); the "stop" line is not a hobby and the lines after it are
    not read.  The summary ends with "You didn't mention any hobbies."
    when there is none, and otherwise with the count and one "- hobby"
    line for each, before the closing "---". *)
Theorem main_collects_hobbies
  (user_name birth_year_str : str) (hobbies : list str) (stop : str)
  (rest : list str) (profile : UserProfile) (printed : list str) :
  forallb (fun h => negb (is_stop h)) hobbies = true ->
  is_stop stop = true ->
  main (user_name :: birth_year_str :: hobbies ++ stop :: rest)
    = Some (profile, printed) ->
  Lecture2.hobbies profile = hobbies
  /\ name profile = user_name
  /\ firstn 3 printed
     = [10%N :: lit "---"; lit "Profile Summary:"; lit "Name: " ++ user_name]
  /\ skipn 5 printed
     = match hobbies with
       | [] => [lit "You didn't mention any hobbies."]
       | _ :: _ =>
           (lit "Favorite Hobbies ("
              ++ decimal_of_Z (Z.of_nat (List.length hobbies)) ++ lit "):")
             :: List.map (fun hobby => lit "- " ++ hobby) hobbies
       end ++ [lit "---"].
Proof.
  intros Hh Hs. unfold main.
  destruct (int_of_str birth_year_str) as [birth_year|]; [|discriminate].
  rewrite (Lecture2Facts.read_hobbies_stop hobbies stop rest [] Hh Hs).
  cbn [age app]. destruct (str_of_int (2025 - birth_year)); [|discriminate].
  intros H. injection H as <- <-. cbn [Lecture2.hobbies name firstn skipn app].
  unfold hobby_lines. destruct hobbies; auto.
Qed.

Lemma generate_profile_of_birth_year (birth_year : Z) :
  (generate_profile (2025 - birth_year) = lit "Child"
   <-> (2013 <= birth_year <= 2025)%Z)
  /\ (generate_profile (2025 - birth_year) = lit "Teenager"
      <-> (2006 <= birth_year <= 2012)%Z)
  /\ (generate_profile (2025 - birth_year) = lit "Adult"
      <-> (birth_year <= 2005)%Z)
  /\ (generate_profile (2025 - birth_year) = lit "Unknown"
      <-> (2025 < birth_year)%Z).
Proof.
  unfold generate_profile. rewrite Z.geb_leb.
  destruct (Z.leb_spec 0 (2025 - birth_year)),
    (Z.leb_spec (2025 - birth_year) 12), (Z.leb_spec 13 (2025 - birth_year)),
    (Z.leb_spec (2025 - birth_year) 19), (Z.leb_spec 20 (2025 - birth_year));
    cbn [andb]; try lia;
    (repeat apply conj; intros Hlabel;
     first [ lia | reflexivity
           | apply (f_equal (fun s => nth 0 s 0%N)) in Hlabel;
             discriminate Hlabel ]).
Qed.

(** X3. In a profile that [main] prints, the life stage follows from the
    birth year read: "Child" exactly for 2013..2025, "Teenager" exactly
    for 2006..2012, "Adult" exactly up to 2005, and "Unknown" exactly
    for a birth year after 2025; the summary has the line
    "Life Stage: ..." with it. *)
Theorem life_stage_of_birth_year
  (inputs : list str) (profile : UserProfile) (printed : list str) :
  main inputs = Some (profile, printed) ->
  (life_stage profile = lit "Child"
   <-> (2013 <= birth_year profile <= 2025)%Z)
  /\ (life_stage profile = lit "Teenager"
      <-> (2006 <= birth_year profile <= 2012)%Z)
  /\ (life_stage profile = lit "Adult" <-> (birth_year profile <= 2005)%Z)
  /\ (life_stage profile = lit "Unknown" <-> (2025 < birth_year profile)%Z)
  /\ In (lit "Life Stage: " ++ life_stage profile) printed.
Proof.
  unfold main. destruct inputs as [|user_name [|birth_year_str later]];
    try discriminate.
  destruct (int_of_str birth_year_str) as [by_|]; [|discriminate].
  destruct (read_hobbies [] later); [|discriminate].
  cbn [age]. destruct (str_of_int (2025 - by_)); [|discriminate].
  intros H. injection H as <- <-. cbn [life_stage birth_year].
  destruct (generate_profile_of_birth_year by_) as (H1 & H2 & H3 & H4).
  split; [exact H1|]. split; [exact H2|]. split; [exact H3|].
  split; [exact H4|]. cbn [app In]. auto 6.
Qed.

End Main.

(** A birth year followed by the separator U+001F, which [int] refuses,
    ends the run. *)
Example main_refuses_separator_after_year :
  main (rt := ascii_runtime) [lit "Ann"; lit "2013" ++ [31%N]; lit "stop"]
  = None.
Proof. reflexivity. Qed.

Lemma main_collects_hobbies_witness :
  exists profile printed,
    main (rt := ascii_runtime)
      (lit "Ann" :: lit "2000"
         :: [lit "chess"; lit " stop"] ++ lit "STOP" :: [lit "golf"])
      = Some (profile, printed)
    /\ Lecture2.hobbies profile = [lit "chess"; lit " stop"]
    /\ skipn 5 printed
       = [lit "Favorite Hobbies (2):"; lit "- chess"; lit "-  stop"; lit "---"].
Proof.
  eexists; eexists. split; [reflexivity|].
  destruct (main_collects_hobbies (rt := ascii_runtime)
              (lit "Ann") (lit "2000") [lit "chess"; lit " stop"] (lit "STOP")
              [lit "golf"] _ _ eq_refl eq_refl eq_refl) as (H1 & _ & _ & H2).
  split; [exact H1 | exact H2].
Defined.

Lemma life_stage_of_birth_year_witness :
  exists profile printed,
    main (rt := ascii_runtime) [lit "Ann"; lit "2030"; lit "stop"]
      = Some (profile, printed)
    /\ life_stage profile = lit "Unknown".
Proof.
  eexists; eexists. split; [reflexivity|].
  apply (life_stage_of_birth_year (rt := ascii_runtime)
           [lit "Ann"; lit "2030"; lit "stop"] _ _ eq_refl).
  cbn. lia.
Defined.

End Lecture2Run.

(* ================================================================== *)
(** * lecture_3: lookups, sessions and the menu loop *)
(* ================================================================== *)

Module Lecture3Session.
Import Lecture3 Lecture3Handlers.

Section Session.
Context {rt : PyRuntime}.

(** ** Looking a student up *)

Lemma same_name_eq s name :
  same_name s name = true <-> str_lower (Lecture3.name s) = str_lower name.
Proof. unfold same_name. apply str_eqb_eq. Qed.

Lemma same_name_neq s name :
  same_name s name = false <-> str_lower (Lecture3.name s) <> str_lower name.
Proof.
  rewrite <- same_name_eq. destruct (same_name s name); split; congruence.
Qed.

Lemma find_student_by_name_spec students name :
  match find_student_by_name students name with
  | Some i =>
      exists s, nth_error students i = Some s
                /\ str_lower (Lecture3.name s) = str_lower name
                /\ forall j t, (j < i)%nat -> nth_error students j = Some t ->
                               str_lower (Lecture3.name t) <> str_lower name
  | None =>
      forall s, In s students -> str_lower (Lecture3.name s) <> str_lower name
  end.
Proof.
  induction students as [|s students IH]; cbn [find_student_by_name].
  - intros s [].
  - destruct (same_name s name) eqn:E.
    + exists s. split; [reflexivity|]. split; [apply same_name_eq; exact E|].
      intros j t Hj. lia.
    + destruct (find_student_by_name students name) as [i|]; cbn [option_map].
      * destruct IH as (t & Ht & Hn & Hfirst). exists t.
        split; [exact Ht|]. split; [exact Hn|].
        intros [|j] u Hj Hu; cbn in Hu.
        -- injection Hu as <-. apply same_name_neq. exact E.
        -- apply (Hfirst j u); [lia | exact Hu].
      * intros t [<-|Ht]; [apply same_name_neq; exact E | auto].
Qed.

(** X4. [find_student_by_name] returns the first student of the roster
    whose lowered name is the lowered name asked for: no student before
    it matches; it returns [None] exactly when no student matches.  It
    finds a student exactly when [is_duplicate_student] answers true, so
    the names that [add_student] refuses as duplicates are the names
    that [add_grades] finds. *)
Theorem find_student_by_name_first_match
  (students : list Student) (name : str) :
  match find_student_by_name students name with
  | Some i =>
      (exists s, nth_error students i = Some s
                 /\ str_lower (Lecture3.name s) = str_lower name
                 /\ forall j t, (j < i)%nat -> nth_error students j = Some t ->
                                str_lower (Lecture3.name t) <> str_lower name)
      /\ is_duplicate_student students name = true
  | None =>
      (forall s, In s students -> str_lower (Lecture3.name s) <> str_lower name)
      /\ is_duplicate_student students name = false
  end.
Proof.
  pose proof (find_student_by_name_spec students name) as H.
  destruct (find_student_by_name students name) as [i|].
  - split; [exact H|]. destruct H as (s & Hs & Hn & _).
    apply is_duplicate_student_exists. exists s.
    split; [eapply nth_error_In; exact Hs | exact Hn].
  - split; [exact H|]. apply is_duplicate_student_none. exact H.
Qed.

Lemma find_student_by_name_app students s name :
  (forall t, In t students -> str_lower (Lecture3.name t) <> str_lower name) ->
  find_student_by_name (students ++ [s]) name
  = if same_name s name then Some (List.length students) else None.
Proof.
  induction students as [|t students IH]; intros H; cbn.
  - destruct (same_name s name); reflexivity.
  - replace (same_name t name) with false
      by (symmetry; apply same_name_neq; apply H; left; reflexivity).
    rewrite IH by (intros u Hu; apply H; right; exact Hu).
    destruct (same_name s name); reflexivity.
Qed.

(** X5. A student that [add_student] has just added is found again
    under every spelling of the name that lowers alike: the lookup
    returns the last position of the roster, where the student stands
    with no grade, and the name now counts as a duplicate. *)
Theorem added_student_is_found
  (students : list Student) (line : str) (rest : list str) (query : str) :
  let name := get_student_name_input line in
  str_isalpha name = true ->
  is_duplicate_student students name = false ->
  str_lower query = str_lower name ->
  let o := add_student students (line :: rest) in
  find_student_by_name (roster o) query = Some (List.length students)
  /\ nth_error (roster o) (List.length students)
     = Some {| name := name; grades := [] |}
  /\ is_duplicate_student (roster o) query = true.
Proof.
  intros name Ha Hd Hq o. subst o name.
  rewrite (add_student_new students line rest Ha Hd). cbn [roster].
  assert (Hfind : find_student_by_name
                    (students ++ [create_new_student (get_student_name_input line)])
                    query = Some (List.length students)).
  { rewrite find_student_by_name_app.
    - replace (same_name _ query) with true; [reflexivity|].
      symmetry. apply same_name_eq. cbn. congruence.
    - rewrite Hq. apply is_duplicate_student_none. exact Hd. }
  split; [exact Hfind|]. split.
  - rewrite nth_error_app2, Nat.sub_diag by lia. reflexivity.
  - apply is_duplicate_student_exists.
    exists (create_new_student (get_student_name_input line)).
    split; [apply in_or_app; right; left; reflexivity | cbn; congruence].
Qed.

Lemma find_student_by_name_unique students : forall i s name,
  names_distinct students ->
  nth_error students i = Some s ->
  str_lower (Lecture3.name s) = str_lower name ->
  find_student_by_name students name = Some i.
Proof.
  unfold names_distinct.
  induction students as [|t students IH]; intros i s name Hd Hs Hn.
  - destruct i; discriminate.
  - cbn [List.map] in Hd. inversion Hd as [|? ? Hnotin Hd']; subst.
    cbn [find_student_by_name]. destruct i as [|i]; cbn in Hs.
    + injection Hs as ->. replace (same_name s name) with true
        by (symmetry; apply same_name_eq; exact Hn). reflexivity.
    + replace (same_name t name) with false.
      * rewrite (IH i s name Hd' Hs Hn). reflexivity.
      * symmetry. apply same_name_neq. intros Heq. apply Hnotin.
        rewrite Heq, <- Hn. apply in_map_iff. exists s.
        split; [reflexivity | eapply nth_error_In; exact Hs].
Qed.

(** X6. In a roster whose lowered names are pairwise different,
    [add_grades] on a name that lowers as the name of a student appends
    the grades accepted before "done" to that student, in order, leaves
    every other student as it was, and leaves the lines after "done" on
    the console. *)
Theorem add_grades_appends_to_named_student
  (students : list Student) (i : nat) (s : Student) (line : str)
  (lines : list str) (stop : str) (rest : list str) :
  names_distinct students ->
  nth_error students i = Some s ->
  str_lower (Lecture3.name s) = str_lower (get_student_name_input line) ->
  forallb (fun l => negb (is_done l)) lines = true ->
  is_done stop = true ->
  let o := add_grades students (line :: lines ++ stop :: rest) in
  nth_error (roster o) i
  = Some {| name := Lecture3.name s;
            grades := grades s ++ accepted_grades lines |}
  /\ (forall j, j <> i -> nth_error (roster o) j = nth_error students j)
  /\ List.length (roster o) = List.length students
  /\ unread o = rest /\ raised o = false.
Proof.
  intros Hd Hs Hn Hl Hstop o. subst o.
  pose proof (find_student_by_name_unique students i s _ Hd Hs Hn) as Hfind.
  destruct (add_grades_found students line (lines ++ stop :: rest) i Hfind)
    as [Hi ->].
  rewrite (add_grades_to_student_run students i lines stop rest Hl Hstop).
  cbn zeta. cbn [roster unread raised].
  pose proof (append_grades_same students i (accepted_grades lines) Hi) as Hg.
  pose proof (append_grades_names students i (accepted_grades lines)) as Hnames.
  pose proof (f_equal (@List.length _) Hnames) as Hlen.
  rewrite !length_map in Hlen.
  apply (f_equal (fun l => nth_error l i)) in Hnames.
  rewrite !nth_error_map in Hnames. unfold student_grades in Hg.
  rewrite Hs in Hg, Hnames.
  destruct (nth_error (append_grades students i (accepted_grades lines)) i)
    as [[n g]|]; cbn in Hg, Hnames; [|discriminate].
  injection Hnames as ->. subst g.
  split; [reflexivity|].
  split; [intros j Hj; apply append_grades_other; congruence|]. auto.
Qed.


(** ** The console *)

Lemma grade_loop_unread inputs : forall students i grades_added out,
  exists consumed,
    inputs = consumed ++ unread (fst (grade_loop students i grades_added out inputs)).
Proof.
  induction inputs as [|line rest IH]; intros students i grades_added out.
  - exists []. reflexivity.
  - cbn [grade_loop]. destruct (get_grade_input line) as [grade_input grade].
    destruct (str_eqb grade_input (lit "done")).
    + exists [line]. reflexivity.
    + destruct grade as [g|]; [destruct (validate_grade g); cbn [negb]|];
        match goal with
        | |- context [grade_loop ?st ?j ?n ?o rest] =>
            destruct (IH st j n o) as [consumed Hc]
        end; exists (line :: consumed); cbn [app]; rewrite <- Hc; reflexivity.
Qed.

Lemma add_grades_to_student_unread students i inputs :
  exists consumed,
    inputs = consumed ++ unread (add_grades_to_student students i inputs).
Proof.
  unfold add_grades_to_student.
  destruct (grade_loop_unread inputs students i 0
              [10%N :: lit "Adding grades for " ++ student_name students i;
               lit "Enter grades (0-100) or 'done' to finish:"]) as [consumed Hc].
  destruct (grade_loop students i 0 _ inputs) as [o grades_added].
  cbn [fst] in Hc. exists consumed. destruct (raised o); exact Hc.
Qed.

Lemma add_student_unread students inputs :
  exists consumed, inputs = consumed ++ unread (add_student students inputs).
Proof.
  destruct inputs as [|line rest]; [exists []; reflexivity|].
  exists [line]. unfold add_student.
  repeat match goal with
         | |- context [if ?b then _ else _] => destruct b
         end; reflexivity.
Qed.

Lemma add_grades_unread students inputs :
  exists consumed, inputs = consumed ++ unread (add_grades students inputs).
Proof.
  unfold add_grades. destruct students as [|s students]; [exists []; reflexivity|].
  destruct inputs as [|line rest]; [exists []; reflexivity|].
  destruct (find_student_by_name (s :: students) (get_student_name_input line))
    as [i|]; [|exists [line]; reflexivity].
  destruct (add_grades_to_student_unread (s :: students) i rest) as [consumed Hc].
  exists (line :: consumed). cbn [app]. rewrite <- Hc. reflexivity.
Qed.

Lemma guarded_unread o : unread (guarded o) = unread o.
Proof. unfold guarded. destruct (raised o); reflexivity. Qed.

(** A turn on a console that is not exhausted reads its first line,
    and leaves the loop only when that line strips to "5". *)
Lemma menu_turn_reads students line rest :
  (str_strip line = lit "5"
   /\ menu_turn students (line :: rest)
      = ({| roster := students;
            printed :=
              display_menu
              ++ [lit "Thank you for using Student Grade Analyzer. Goodbye!"];
            unread := rest; raised := false |}, Exited))
  \/ (snd (menu_turn students (line :: rest)) = Running
      /\ exists consumed,
           rest = consumed ++ unread (fst (menu_turn students (line :: rest)))).
Proof.
  unfold menu_turn.
  destruct (str_eqb (str_strip line) (lit "1")) eqn:E1.
  { right. split; [reflexivity|]. cbn [fst unread]. rewrite guarded_unread.
    apply add_student_unread. }
  destruct (str_eqb (str_strip line) (lit "2")) eqn:E2.
  { right. split; [reflexivity|]. cbn [fst unread]. rewrite guarded_unread.
    apply add_grades_unread. }
  destruct (str_eqb (str_strip line) (lit "3")) eqn:E3.
  { right. split; [reflexivity|]. exists []. reflexivity. }
  destruct (str_eqb (str_strip line) (lit "4")) eqn:E4.
  { right. split; [reflexivity|]. exists []. reflexivity. }
  destruct (str_eqb (str_strip line) (lit "5")) eqn:E5.
  - left. apply str_eqb_eq in E5. auto.
  - right. split; [reflexivity|]. exists []. reflexivity.
Qed.

Lemma menu_turn_eof students :
  menu_turn students []
  = ({| roster := students; printed := display_menu ++ [unexpected_eof];
        unread := []; raised := false |}, Running).
Proof. reflexivity. Qed.

Lemma main_loop_eof turns : forall students out,
  main_loop turns students out []
  = ({| roster := students;
        printed :=
          out ++ List.concat (repeat (display_menu ++ [unexpected_eof]) turns);
        unread := []; raised := false |}, Running).
Proof.
  induction turns as [|turns IH]; intros students out.
  - cbn. rewrite app_nil_r. reflexivity.
  - cbn [main_loop]. rewrite menu_turn_eof. cbn [roster printed unread].
    rewrite IH. cbn [repeat List.concat]. rewrite <- app_assoc. reflexivity.
Qed.


Lemma main_loop_exit turns : forall students out inputs,
  snd (main_loop turns students out inputs) = Exited ->
  (exists line, In line inputs /\ str_strip line = lit "5")
  /\ exists before,
       printed (fst (main_loop turns students out inputs))
       = before
         ++ [lit "Thank you for using Student Grade Analyzer. Goodbye!"].
Proof.
  induction turns as [|turns IH]; intros students out inputs H.
  - discriminate H.
  - destruct inputs as [|line rest].
    + rewrite main_loop_eof in H. discriminate H.
    + cbn [main_loop] in *.
      destruct (menu_turn_reads students line rest)
        as [[H5 ->]|[Hrun (consumed & Hc)]].
      * cbn [fst printed]. split.
        -- exists line. split; [left; reflexivity | exact H5].
        -- exists (out ++ display_menu). rewrite <- app_assoc. reflexivity.
      * destruct (menu_turn students (line :: rest)) as [o st].
        cbn [fst snd] in *. subst st.
        destruct (IH _ _ _ H) as [(l & Hin & Hl) Hp]. split; [|exact Hp].
        exists l. split; [|exact Hl]. right. rewrite Hc.
        apply in_or_app. right. exact Hin.
Qed.

(** ** The console that ends by an interrupt *)

Lemma handled_end_of_file o : handled EndOfFile o = (guarded o, Running).
Proof. unfold handled, guarded. destruct (raised o); reflexivity. Qed.

(** On a console that ends by its end, the loop with both [except]
    clauses is the loop of [menu_turn]. *)
Lemma menu_turn_at_end_of_file students inputs :
  menu_turn_at EndOfFile students inputs = menu_turn students inputs.
Proof.
  unfold menu_turn_at, menu_turn. destruct inputs as [|line rest];
    [reflexivity|].
  cbn zeta.
  destruct (str_eqb (str_strip line) (lit "1"));
    [rewrite handled_end_of_file; reflexivity|].
  destruct (str_eqb (str_strip line) (lit "2"));
    [rewrite handled_end_of_file; reflexivity|].
  destruct (str_eqb (str_strip line) (lit "3")); [reflexivity|].
  destruct (str_eqb (str_strip line) (lit "4")); [reflexivity|].
  destruct (str_eqb (str_strip line) (lit "5")); reflexivity.
Qed.

Lemma main_loop_at_end_of_file turns : forall students out inputs,
  main_loop_at EndOfFile turns students out inputs
  = main_loop turns students out inputs.
Proof.
  induction turns as [|turns IH]; intros students out inputs; [reflexivity|].
  cbn [main_loop_at main_loop]. rewrite menu_turn_at_end_of_file.
  destruct (menu_turn students inputs) as [o st].
  destruct st; [reflexivity | apply IH].
Qed.

(** [input()] raises only on a console that has no line left. *)
Lemma grade_loop_raised inputs : forall students i grades_added out,
  raised (fst (grade_loop students i grades_added out inputs)) = true ->
  unread (fst (grade_loop students i grades_added out inputs)) = [].
Proof.
  induction inputs as [|line rest IH]; intros students i grades_added out.
  - reflexivity.
  - cbn [grade_loop]. destruct (get_grade_input line) as [grade_input grade].
    destruct (str_eqb grade_input (lit "done")).
    + cbn. discriminate.
    + destruct grade as [g|]; [destruct (validate_grade g); cbn [negb]|];
        apply IH.
Qed.

Lemma add_grades_to_student_raised students i inputs :
  raised (add_grades_to_student students i inputs) = true ->
  unread (add_grades_to_student students i inputs) = [].
Proof.
  unfold add_grades_to_student.
  pose proof (grade_loop_raised inputs students i 0
                [10%N :: lit "Adding grades for " ++ student_name students i;
                 lit "Enter grades (0-100) or 'done' to finish:"]) as H.
  destruct (grade_loop students i 0 _ inputs) as [o grades_added].
  cbn [fst] in H. destruct (raised o) eqn:E.
  - intros _. apply H. reflexivity.
  - cbn. discriminate.
Qed.

Lemma add_student_raised students inputs :
  raised (add_student students inputs) = true ->
  unread (add_student students inputs) = [].
Proof.
  destruct inputs as [|line rest]; [reflexivity|].
  unfold add_student.
  repeat match goal with
         | |- context [if ?b then _ else _] => destruct b
         end; cbn; discriminate.
Qed.

Lemma add_grades_raised students inputs :
  raised (add_grades students inputs) = true ->
  unread (add_grades students inputs) = [].
Proof.
  unfold add_grades. destruct students as [|s students]; [cbn; discriminate|].
  destruct inputs as [|line rest]; [reflexivity|].
  destruct (find_student_by_name (s :: students) (get_student_name_input line))
    as [i|]; [apply add_grades_to_student_raised | cbn; discriminate].
Qed.

(** The [except] clauses break the loop only on an interrupt, which
    finds the console read to its end and prints its message last. *)
Lemma handled_cases ending o :
  (raised o = true -> unread o = []) ->
  (snd (handled ending o) = Exited
   /\ ending = Interrupt
   /\ unread (fst (handled ending o)) = []
   /\ printed (fst (handled ending o)) = printed o ++ [interrupted])
  \/ snd (handled ending o) = Running.
Proof.
  intros Hu. unfold handled. destruct (raised o); [|right; reflexivity].
  destruct ending; [right; reflexivity|].
  left. cbn. auto.
Qed.

(** A turn agrees with the turn of [menu_turn] on the roster it leaves
    and on the lines it reads. *)
Lemma menu_turn_at_same ending students inputs :
  roster (fst (menu_turn_at ending students inputs))
  = roster (fst (menu_turn students inputs))
  /\ unread (fst (menu_turn_at ending students inputs))
     = unread (fst (menu_turn students inputs)).
Proof.
  assert (Hh : forall o,
             roster (fst (handled ending o)) = roster (guarded o)
             /\ unread (fst (handled ending o)) = unread (guarded o)).
  { intros o. unfold handled, guarded.
    destruct (raised o); [destruct ending|]; split; reflexivity. }
  unfold menu_turn_at, menu_turn. destruct inputs as [|line rest].
  - destruct ending; split; reflexivity.
  - cbn zeta.
    destruct (str_eqb (str_strip line) (lit "1")); [cbn; apply Hh|].
    destruct (str_eqb (str_strip line) (lit "2")); [cbn; apply Hh|].
    destruct (str_eqb (str_strip line) (lit "3")); [split; reflexivity|].
    destruct (str_eqb (str_strip line) (lit "4")); [split; reflexivity|].
    destruct (str_eqb (str_strip line) (lit "5")); split; reflexivity.
Qed.

Lemma menu_turn_unread students inputs :
  exists consumed,
    inputs = consumed ++ unread (fst (menu_turn students inputs)).
Proof.
  destruct inputs as [|line rest]; [exists []; reflexivity|].
  destruct (menu_turn_reads students line rest)
    as [[_ ->]|[_ (consumed & Hc)]].
  - exists [line]. reflexivity.
  - exists (line :: consumed). cbn [app]. rewrite <- Hc. reflexivity.
Qed.

(** How a turn ends: by the choice 5, by an interrupt at a prompt, or
    with the loop still running. *)
Lemma menu_turn_at_cases ending students inputs :
  (exists line rest,
     inputs = line :: rest /\ str_strip line = lit "5"
     /\ menu_turn_at ending students inputs
        = ({| roster := students;
              printed :=
                display_menu
                ++ [lit "Thank you for using Student Grade Analyzer. Goodbye!"];
              unread := rest; raised := false |}, Exited))
  \/ (snd (menu_turn_at ending students inputs) = Exited
      /\ ending = Interrupt
      /\ unread (fst (menu_turn_at ending students inputs)) = []
      /\ exists before,
           printed (fst (menu_turn_at ending students inputs))
           = before ++ [interrupted])
  \/ snd (menu_turn_at ending students inputs) = Running.
Proof.
  assert (Hh : forall o,
             (raised o = true -> unread o = []) ->
             let r := handled ending o in
             (snd r = Exited
              /\ ending = Interrupt
              /\ unread (fst r) = []
              /\ exists before,
                   display_menu ++ printed (fst r) = before ++ [interrupted])
             \/ snd r = Running).
  { intros o Hu. cbn zeta.
    destruct (handled_cases ending o Hu) as [(He & Hi & Hn & Hp)|Hr];
      [left|right; exact Hr].
    repeat split; try assumption.
    exists (display_menu ++ printed o). rewrite Hp, app_assoc. reflexivity. }
  unfold menu_turn_at. destruct inputs as [|line rest].
  - right. cbn [fst snd roster printed unread].
    apply (Hh {| roster := students; printed := []; unread := [];
                 raised := true |}).
    reflexivity.
  - cbn zeta.
    destruct (str_eqb (str_strip line) (lit "1")).
    { right. cbn [fst snd roster printed unread].
      apply Hh, add_student_raised. }
    destruct (str_eqb (str_strip line) (lit "2")).
    { right. cbn [fst snd roster printed unread].
      apply Hh, add_grades_raised. }
    destruct (str_eqb (str_strip line) (lit "3")); [right; right; reflexivity|].
    destruct (str_eqb (str_strip line) (lit "4")); [right; right; reflexivity|].
    destruct (str_eqb (str_strip line) (lit "5")) eqn:E5;
      [|right; right; reflexivity].
    left. exists line, rest. apply str_eqb_eq in E5. auto.
Qed.

Lemma main_loop_at_exit ending turns : forall students out inputs,
  snd (main_loop_at ending turns students out inputs) = Exited ->
  ((exists line, In line inputs /\ str_strip line = lit "5")
   /\ exists before,
        printed (fst (main_loop_at ending turns students out inputs))
        = before
          ++ [lit "Thank you for using Student Grade Analyzer. Goodbye!"])
  \/ (ending = Interrupt
      /\ unread (fst (main_loop_at ending turns students out inputs)) = []
      /\ exists before,
           printed (fst (main_loop_at ending turns students out inputs))
           = before ++ [interrupted]).
Proof.
  induction turns as [|turns IH]; intros students out inputs H.
  - discriminate H.
  - cbn [main_loop_at] in *.
    destruct (menu_turn_unread students inputs) as [consumed Hc].
    rewrite <- (proj2 (menu_turn_at_same ending students inputs)) in Hc.
    destruct (menu_turn_at_cases ending students inputs)
      as [(line & rest & -> & H5 & ->)
         |[(He & Hi & Hn & before & Hp)|Hrun]].
    + left. cbn [fst printed]. split.
      * exists line. split; [left; reflexivity | exact H5].
      * exists (out ++ display_menu). rewrite <- app_assoc. reflexivity.
    + right. destruct (menu_turn_at ending students inputs) as [o st].
      cbn [fst snd] in *. subst st. cbn [fst printed unread].
      repeat split; try assumption.
      exists (out ++ before). rewrite Hp, app_assoc. reflexivity.
    + destruct (menu_turn_at ending students inputs) as [o st].
      cbn [fst snd] in *. subst st.
      destruct (IH _ _ _ H) as [[(l & Hin & Hl) Hp]|Hi];
        [left|right; exact Hi].
      split; [|exact Hp].
      exists l. split; [|exact Hl]. rewrite Hc.
      apply in_or_app. right. exact Hin.
Qed.

(** X9. [main] leaves its loop in two ways only.  Either some line of
    the console stripped to "5", and the last thing printed is the
    goodbye; or the console ended by an interrupt from the keyboard,
    which came at a prompt after every line had been read, and the last
    thing printed is "Program interrupted by user. Exiting..." after two
    line breaks.  Nothing else ends the loop: not an unknown choice, not
    a refused name or grade, not the end of the console. *)
Theorem main_exits_by_choice_5_or_interrupt
  (ending : console_end) (turns : nat) (inputs : list str) :
  snd (main_at ending turns inputs) = Exited ->
  ((exists line, In line inputs /\ str_strip line = lit "5")
   /\ exists before,
        printed (fst (main_at ending turns inputs))
        = before
          ++ [lit "Thank you for using Student Grade Analyzer. Goodbye!"])
  \/ (ending = Interrupt
      /\ unread (fst (main_at ending turns inputs)) = []
      /\ exists before,
           printed (fst (main_at ending turns inputs))
           = before ++ [interrupted]).
Proof. unfold main_at. apply main_loop_at_exit. Qed.

Lemma menu_turn_at_interrupt students inputs :
  snd (menu_turn_at Interrupt students inputs)
  = snd (menu_turn students inputs)
  \/ (snd (menu_turn_at Interrupt students inputs) = Exited
      /\ unread (fst (menu_turn students inputs)) = []).
Proof.
  assert (Hh : forall o,
             (raised o = true -> unread o = []) ->
             snd (handled Interrupt o) = Running
             \/ (snd (handled Interrupt o) = Exited
                 /\ unread (guarded o) = [])).
  { intros o Hu. unfold handled, guarded. destruct (raised o);
      [right; split; [reflexivity | apply Hu; reflexivity]
      |left; reflexivity]. }
  unfold menu_turn_at, menu_turn. destruct inputs as [|line rest].
  - right. split; reflexivity.
  - cbn zeta.
    destruct (str_eqb (str_strip line) (lit "1"));
      [cbn [fst snd unread]; apply Hh, add_student_raised|].
    destruct (str_eqb (str_strip line) (lit "2"));
      [cbn [fst snd unread]; apply Hh, add_grades_raised|].
    destruct (str_eqb (str_strip line) (lit "3")); [left; reflexivity|].
    destruct (str_eqb (str_strip line) (lit "4")); [left; reflexivity|].
    destruct (str_eqb (str_strip line) (lit "5")); left; reflexivity.
Qed.

Lemma main_loop_at_interrupt_roster turns : forall students out out' inputs,
  roster (fst (main_loop_at Interrupt turns students out inputs))
  = roster (fst (main_loop turns students out' inputs)).
Proof.
  induction turns as [|turns IH]; intros students out out' inputs;
    [reflexivity|].
  cbn [main_loop_at main_loop].
  destruct (menu_turn_at_same Interrupt students inputs) as [Hr Hu].
  pose proof (menu_turn_at_interrupt students inputs) as Hs.
  destruct (menu_turn_at Interrupt students inputs) as [o' st'].
  destruct (menu_turn students inputs) as [o st].
  cbn [fst snd] in *.
  destruct Hs as [->|[-> Hn]].
  - destruct st; [exact Hr|]. rewrite Hr, Hu. apply IH.
  - destruct st; [exact Hr|]. rewrite Hn, main_loop_eof. exact Hr.
Qed.

Lemma main_loop_at_interrupt_exits turns : forall students out inputs,
  (List.length inputs < turns)%nat ->
  snd (main_loop_at Interrupt turns students out inputs) = Exited.
Proof.
  induction turns as [|turns IH]; intros students out inputs Hlen; [lia|].
  cbn [main_loop_at].
  destruct inputs as [|line rest]; [reflexivity|].
  assert (Hu : (List.length
                  (unread (fst (menu_turn_at Interrupt students (line :: rest))))
                <= List.length rest)%nat).
  { rewrite (proj2 (menu_turn_at_same Interrupt students (line :: rest))).
    destruct (menu_turn_reads students line rest)
      as [[_ ->]|[_ (consumed & Hc)]]; cbn [fst unread]; [lia|].
    rewrite Hc at 2. rewrite length_app. lia. }
  destruct (menu_turn_at Interrupt students (line :: rest)) as [o st].
  cbn [fst List.length] in *.
  destruct st; [reflexivity|]. apply IH. lia.
Qed.

(** X18. An interrupt from the keyboard ends [main], and loses nothing
    of the roster.  On a console that ends by an interrupt the loop is
    left after at most one turn more than the console has lines, and
    the roster it leaves is the roster that the same lines leave on a
    console that simply ends: every student and every grade accepted
    before the interrupt is there. *)
Theorem interrupt_ends_main_and_keeps_roster
  (turns : nat) (inputs : list str) :
  (List.length inputs < turns)%nat ->
  snd (main_at Interrupt turns inputs) = Exited
  /\ roster (fst (main_at Interrupt turns inputs))
     = roster (fst (main turns inputs)).
Proof.
  intros Hlen. unfold main_at, main. split.
  - apply main_loop_at_interrupt_exits. exact Hlen.
  - apply main_loop_at_interrupt_roster.
Qed.

(** X19. The invariant of the roster holds however the console ends:
    in every roster that [main] reaches, also when an interrupt cuts a
    turn short, every name is purely alphabetic, the lowered names are
    pairwise different, and every grade passed [0 <= grade <= 100]. *)
Theorem roster_invariant_at_any_end
  (ending : console_end) (turns : nat) (inputs : list str) :
  roster_invariant (roster (fst (main_at ending turns inputs))).
Proof.
  unfold main_at. destruct ending.
  - rewrite main_loop_at_end_of_file. apply (main_invariant turns inputs).
  - rewrite (main_loop_at_interrupt_roster turns []
               [lit "Welcome to Student Grade Analyzer!"]
               [lit "Welcome to Student Grade Analyzer!"] inputs).
    apply (main_invariant turns inputs).
Qed.

Lemma menu_turn_unread_length students inputs :
  (List.length (unread (fst (menu_turn students inputs)))
   <= Nat.pred (List.length inputs))%nat.
Proof.
  destruct inputs as [|line rest]; [cbn; lia|].
  destruct (menu_turn_reads students line rest)
    as [[_ ->]|[_ (consumed & Hc)]]; cbn [fst unread List.length Nat.pred]; [lia|].
  rewrite Hc at 2. rewrite length_app. lia.
Qed.

Lemma main_loop_settles turns : forall students out inputs more,
  (List.length inputs <= turns)%nat ->
  let now := main_loop turns students out inputs in
  let later := main_loop (turns + more) students out inputs in
  roster (fst later) = roster (fst now)
  /\ snd later = snd now
  /\ unread (fst later) = unread (fst now)
  /\ (snd now = Exited \/ unread (fst now) = []).
Proof.
  induction turns as [|turns IH]; intros students out inputs more Hlen; cbn zeta.
  - destruct inputs; [|cbn in Hlen; lia].
    cbn [Nat.add]. rewrite main_loop_eof. cbn. auto.
  - cbn [Nat.add main_loop].
    pose proof (menu_turn_unread_length students inputs) as Hu.
    destruct (menu_turn students inputs) as [o st]. cbn [fst] in Hu.
    destruct st; [cbn; auto|].
    apply IH. lia.
Qed.

(** X10. As many turns as the console has lines are enough: by then
    [main] has left its loop or read the whole console, and from then on
    the roster does not change, however long the loop runs. *)
Theorem main_roster_settles (turns : nat) (inputs : list str) :
  (List.length inputs <= turns)%nat ->
  roster (fst (main turns inputs))
  = roster (fst (main (List.length inputs) inputs))
  /\ snd (main turns inputs) = snd (main (List.length inputs) inputs)
  /\ (snd (main turns inputs) = Exited
      \/ unread (fst (main turns inputs)) = []).
Proof.
  intros Hlen. unfold main.
  replace turns with (List.length inputs + (turns - List.length inputs))%nat
    by lia.
  destruct (main_loop_settles (List.length inputs) []
              [lit "Welcome to Student Grade Analyzer!"] inputs
              (turns - List.length inputs) (le_n _)) as (Hr & Hs & Hu & Hd).
  cbn zeta in *. rewrite Hr, Hs, Hu. auto.
Qed.

(** ** Nothing is ever removed *)

Lemma keeps_refl students : keeps students students.
Proof.
  split.
  - exists []. rewrite app_nil_r. reflexivity.
  - intros i s Hs. exists s, []. rewrite app_nil_r. auto.
Qed.

Lemma keeps_trans a b c : keeps a b -> keeps b c -> keeps a c.
Proof.
  intros [[x Hx] Hab] [[y Hy] Hbc]. split.
  - exists (x ++ y). rewrite Hy, Hx, <- app_assoc. reflexivity.
  - intros i s Hs. destruct (Hab i s Hs) as (s' & m & Hs' & Hn & Hg).
    destruct (Hbc i s' Hs') as (s'' & m' & Hs'' & Hn' & Hg').
    exists s'', (m ++ m'). split; [exact Hs''|]. split; [congruence|].
    rewrite Hg', Hg, <- app_assoc. reflexivity.
Qed.

Lemma keeps_snoc students s : keeps students (students ++ [s]).
Proof.
  split.
  - exists [Lecture3.name s]. rewrite map_app. reflexivity.
  - intros i t Ht. exists t, []. rewrite app_nil_r.
    split; [|auto]. rewrite nth_error_app1; [exact Ht|].
    apply nth_error_Some. congruence.
Qed.

Lemma keeps_append_grade students i g : keeps students (append_grade students i g).
Proof.
  split.
  - exists []. rewrite app_nil_r. apply append_grade_names.
  - revert i. induction students as [|t students IH]; intros i j s Hs.
    + destruct j; discriminate.
    + destruct i as [|i], j as [|j]; cbn in *.
      * injection Hs as <-. eexists; eexists. repeat split.
      * exists s, []. rewrite app_nil_r. auto.
      * injection Hs as <-. exists t, []. rewrite app_nil_r. auto.
      * apply IH. exact Hs.
Qed.

Lemma keeps_grade_loop inputs : forall students i grades_added out,
  keeps students (roster (fst (grade_loop students i grades_added out inputs))).
Proof.
  induction inputs as [|line rest IH]; intros students i grades_added out.
  - apply keeps_refl.
  - cbn [grade_loop]. destruct (get_grade_input line) as [grade_input grade].
    destruct (str_eqb grade_input (lit "done")); [apply keeps_refl|].
    destruct grade as [g|]; [|apply IH].
    destruct (validate_grade g); cbn [negb]; [|apply IH].
    eapply keeps_trans; [apply keeps_append_grade | apply IH].
Qed.

Lemma keeps_add_grades_to_student students i inputs :
  keeps students (roster (add_grades_to_student students i inputs)).
Proof.
  unfold add_grades_to_student.
  pose proof (keeps_grade_loop inputs students i 0
                [10%N :: lit "Adding grades for " ++ student_name students i;
                 lit "Enter grades (0-100) or 'done' to finish:"]) as H.
  destruct (grade_loop students i 0 _ inputs) as [o grades_added].
  cbn [fst] in H. destruct (raised o); exact H.
Qed.

Lemma keeps_add_student students inputs :
  keeps students (roster (add_student students inputs)).
Proof.
  unfold add_student. destruct inputs as [|line rest]; [apply keeps_refl|].
  repeat match goal with
         | |- context [if ?b then _ else _] => destruct b
         end; cbn [roster]; auto using keeps_refl, keeps_snoc.
Qed.

Lemma keeps_add_grades students inputs :
  keeps students (roster (add_grades students inputs)).
Proof.
  unfold add_grades. destruct students as [|s students]; [apply keeps_refl|].
  destruct inputs as [|line rest]; [apply keeps_refl|].
  destruct (find_student_by_name (s :: students) (get_student_name_input line));
    [apply keeps_add_grades_to_student | apply keeps_refl].
Qed.

Lemma keeps_menu_turn students inputs :
  keeps students (roster (fst (menu_turn students inputs))).
Proof.
  unfold menu_turn. destruct inputs as [|line rest]; [apply keeps_refl|].
  repeat match goal with
         | |- context [if str_eqb ?a ?b then _ else _] => destruct (str_eqb a b)
         end; cbn [fst roster]; rewrite ?guarded_roster;
    auto using keeps_refl, keeps_add_student, keeps_add_grades.
Qed.

Lemma keeps_main_loop turns : forall students out inputs,
  keeps students (roster (fst (main_loop turns students out inputs))).
Proof.
  induction turns as [|turns IH]; intros students out inputs.
  - apply keeps_refl.
  - cbn [main_loop]. pose proof (keeps_menu_turn students inputs) as H.
    destruct (menu_turn students inputs) as [o st]. cbn [fst] in H.
    destruct st; [exact H|]. eapply keeps_trans; [exact H | apply IH].
Qed.

(** X11. The menu loop never removes, renames or reorders a student and
    never removes or changes a grade: whatever the roster at the start
    of a turn, after any number of turns on any console its students are
    still the first students of the roster, under the same names, each
    with the grades it had followed by the grades added since. *)
Theorem roster_is_only_extended
  (turns : nat) (students : list Student) (out inputs : list str) :
  let after := roster (fst (main_loop turns students out inputs)) in
  (exists added,
      List.map Lecture3.name after = List.map Lecture3.name students ++ added)
  /\ forall i s, nth_error students i = Some s ->
       exists s' more,
         nth_error after i = Some s' /\ Lecture3.name s' = Lecture3.name s
         /\ grades s' = grades s ++ more.
Proof. exact (keeps_main_loop turns students out inputs). Qed.

(** X12. A name stays taken: once a student stands in the roster, after
    any number of further turns [add_student] still refuses every name
    that lowers as that student's name, and leaves the roster as it
    is. *)
Theorem name_stays_taken
  (turns : nat) (students : list Student) (out inputs : list str)
  (s : Student) (line : str) (rest : list str) :
  In s students ->
  str_lower (Lecture3.name s) = str_lower (get_student_name_input line) ->
  let after := roster (fst (main_loop turns students out inputs)) in
  add_student after (line :: rest)
  = {| roster := after;
       printed :=
         if str_isalpha (get_student_name_input line)
         then [lit "Error: Student '" ++ get_student_name_input line
                 ++ lit "' already exists!"]
         else [lit "Error: Name should consist only of letters"];
       unread := rest; raised := false |}.
Proof.
  intros Hin Hn after.
  destruct (keeps_main_loop turns students out inputs) as [_ Hkeep].
  fold after in Hkeep.
  destruct (In_nth_error _ _ Hin) as [i Hi].
  destruct (Hkeep i s Hi) as (s' & more & Hs' & Hname & _).
  assert (Hdup : is_duplicate_student after (get_student_name_input line) = true).
  { apply is_duplicate_student_exists. exists s'.
    split; [eapply nth_error_In; exact Hs' | congruence]. }
  destruct (str_isalpha (get_student_name_input line)) eqn:Ha.
  - apply add_student_duplicate; assumption.
  - apply add_student_invalid; assumption.
Qed.

(** ** The grades recorded *)

Lemma validate_grade_finite g :
  validate_grade g = true ->
  PrimFloat.is_finite g = true /\ (g <? 0)%float = false.
Proof.
  unfold validate_grade, PrimFloat.is_finite, PrimFloat.is_infinity.
  rewrite is_nan_sf, FloatAxioms.eqb_spec, FloatAxioms.abs_spec,
    FloatAxioms.ltb_spec, !FloatAxioms.leb_spec, Prim2SF_zero.
  change (Prim2SF infinity) with (S754_infinity false).
  replace (Prim2SF 100%float)
    with (S754_finite false 7036874417766400 (-46)) by reflexivity.
  intros H. apply andb_prop in H. destruct H as [H0 H100].
  destruct (Prim2SF g) as [[]|[]| |[] m e];
    try (cbv in H0; discriminate H0);
    try (clear H0 H100; split; reflexivity).
  cbv in H100. discriminate H100.
Qed.

(** X13. Every grade that the program records is a finite number that
    is not below zero: whatever [float] makes of the console lines (an
    infinity, a NaN), [validate_grade] lets none of them into a roster
    that [main] reaches. *)
Theorem recorded_grades_are_finite (turns : nat) (inputs : list str) :
  Forall (fun s =>
            Forall (fun g => PrimFloat.is_finite g = true
                             /\ (g <? 0)%float = false)
                   (grades s))
         (roster (fst (main turns inputs))).
Proof.
  destruct (main_invariant turns inputs) as (_ & _ & Hr).
  unfold grades_in_range in Hr.
  eapply Forall_impl; [|exact Hr]. intros s Hs. cbn beta in Hs.
  eapply Forall_impl; [|exact Hs]. intros g. apply validate_grade_finite.
Qed.

(** X14. In every roster that [main] reaches from a console of fewer
    than [2^63] lines, [calculate_average] gives a number for every
    student that has grades (never a NaN), and [None] only for a student
    without grades; so the report has an average to show for each
    student with grades. *)
Theorem reported_averages_are_numbers (turns : nat) (inputs : list str) :
  len_ok (List.length inputs) = true ->
  Forall (fun s =>
            match calculate_average (grades s) with
            | Some avg => PrimFloat.is_nan avg = false /\ grades s <> []
            | None => grades s = []
            end)
         (roster (fst (main turns inputs))).
Proof.
  intros Hlen. pose proof (main_roster_grades_ok turns inputs Hlen) as Hok.
  unfold roster_grades_ok in Hok. rewrite forallb_forall in Hok.
  apply Forall_forall. intros s Hs. specialize (Hok s Hs).
  destruct (grades s) as [|g gs] eqn:E; [reflexivity|].
  cbn [calculate_average]. split; [|discriminate].
  apply (Lecture3Stats.arithmetic_mean_not_nan (g :: gs)); [discriminate|exact Hok].
Qed.

(** X15. The roster holds no more grades than the console gave lines:
    at any point of the loop, the grades recorded and the lines still
    unread together are at most the grades and the lines there were. *)
Theorem grades_come_from_console_lines
  (turns : nat) (students : list Student) (out inputs : list str) :
  let o := fst (main_loop turns students out inputs) in
  (total_grades (roster o) + List.length (unread o)
   <= total_grades students + List.length inputs)%nat.
Proof.
  revert students out inputs.
  induction turns as [|turns IH]; intros students out inputs; cbn zeta.
  - cbn [main_loop fst roster unread]. lia.
  - cbn [main_loop]. pose proof (menu_turn_total students inputs) as H.
    cbn zeta in H. destruct (menu_turn students inputs) as [o st].
    cbn [fst] in H. destruct st; cbn [fst roster unread]; [lia|].
    specialize (IH (roster o) (out ++ printed o) (unread o)).
    cbn zeta in IH. lia.
Qed.

(** ** What the report and the top performer show *)

Lemma display_student_report_line students : forall i s,
  nth_error students i = Some s ->
  nth_error (display_student_report students) i
  = Some (Lecture3.name s ++ lit "'s average grade is "
            ++ match calculate_average (grades s) with
               | Some avg => format_2f avg
               | None => lit "N/A"
               end).
Proof.
  intros i s Hs. unfold display_student_report.
  rewrite nth_error_map, Hs. cbn [option_map].
  destruct (calculate_average (grades s)); reflexivity.
Qed.

(** X16. [show_report] on a roster with students prints the title, then
    one line for each student in roster order, with the average in two
    decimals or "N/A" for a student without grades, then the summary:
    the three statistics in two decimals when some student has grades
    (the formats always receive a number, never [None]), and the single
    line "No grades available for summary statistics." otherwise.  On
    the empty roster it prints "No students available." only. *)
Theorem show_report_lists_every_student (students : list Student) :
  match students with
  | [] => show_report students = [lit "No students available."]
  | _ :: _ =>
      exists lines summary,
        show_report students
        = lit "--- Student Report ---" :: lines ++ summary
        /\ List.length lines = List.length students
        /\ (forall i s, nth_error students i = Some s ->
              nth_error lines i
              = Some (Lecture3.name s ++ lit "'s average grade is "
                        ++ match calculate_average (grades s) with
                           | Some avg => format_2f avg
                           | None => lit "N/A"
                           end))
        /\ (if existsb has_grades students then
              exists h l o,
                calculate_summary_statistics students
                = {| highest := Some h; lowest := Some l; overall := Some o |}
                /\ summary
                   = [ lit "------------------------------";
                       lit "Highest average: " ++ format_2f h;
                       lit "Lowest average: " ++ format_2f l;
                       lit "Overall average: " ++ format_2f o ]
            else
              summary = [lit "No grades available for summary statistics."])
  end.
Proof.
  destruct students as [|s0 students0]; [reflexivity|].
  set (students := s0 :: students0).
  exists (display_student_report students),
    (display_summary_statistics (calculate_summary_statistics students)).
  split; [reflexivity|].
  split; [unfold display_student_report; apply length_map|].
  split; [apply display_student_report_line|].
  unfold calculate_summary_statistics.
  rewrite Lecture3Stats.collect_averages. cbn [app].
  pose proof (Lecture3Stats.student_averages_nil students) as Hnil.
  destruct (existsb has_grades students).
  - destruct (student_averages students) as [|first others];
      [destruct Hnil as [Hnil _]; discriminate (Hnil eq_refl)|].
    eexists; eexists; eexists. split; reflexivity.
  - destruct Hnil as [_ Hnil]. rewrite (Hnil eq_refl). reflexivity.
Qed.

Lemma find_top_performer_data_some students :
  existsb has_grades students = true ->
  exists top avg,
    find_top_performer_data students = (Some top, Some avg)
    /\ In top students /\ has_grades top = true
    /\ calculate_average (grades top) = Some avg
    /\ forall s a, In s students -> calculate_average (grades s) = Some a ->
                   (avg <? a)%float = false.
Proof.
  intros Hex. unfold find_top_performer_data.
  destruct (filter has_grades students) as [|first others] eqn:Ef.
  - apply Lecture3Stats.filter_has_grades_nil in Ef. congruence.
  - assert (Hwith : forall s, In s (first :: others) <->
                              In s students /\ has_grades s = true)
      by (intros s; rewrite <- Ef; apply filter_In).
    destruct (max_from_maximal Student top_key others first) as (_ & Hin & Hmax).
    set (top := max_from top_key first others) in *. clearbody top.
    apply Hwith in Hin. destruct Hin as [Hin Htop].
    exists top, (arithmetic_mean (grades top)).
    rewrite Lecture3Stats.calculate_average_has_grades, Htop.
    repeat split; auto.
    intros s a Hs Ha. rewrite Lecture3Stats.calculate_average_has_grades in Ha.
    destruct (has_grades s) eqn:Hg; [|discriminate]. injection Ha as <-.
    specialize (Hmax s (proj2 (Hwith s) (conj Hs Hg))).
    rewrite (Lecture3Stats.top_key_mean s Hg),
      (Lecture3Stats.top_key_mean top Htop), or_zero_ltb in Hmax.
    exact Hmax.
Qed.

(** X17. [find_top_performer] prints "Error: No students available." on
    the empty roster, "No students with grades available." when there
    are students but no grade, and otherwise the title and one line that
    names a student of the roster with that student's average in two
    decimals (the format always receives a number), no student having a
    greater average. *)
Theorem find_top_performer_names_a_best_student (students : list Student) :
  match students with
  | [] => find_top_performer students = [lit "Error: No students available."]
  | _ :: _ =>
      if existsb has_grades students then
        exists top avg,
          In top students
          /\ calculate_average (grades top) = Some avg
          /\ (forall s a, In s students ->
                calculate_average (grades s) = Some a ->
                (avg <? a)%float = false)
          /\ find_top_performer students
             = [ 10%N :: lit "--- Top Performer ---";
                 lit "The student with the highest average is "
                   ++ Lecture3.name top ++ lit " with a grade of "
                   ++ format_2f avg ]
      else
        find_top_performer students
        = [lit "No students with grades available."]
  end.
Proof.
  destruct students as [|s0 students0]; [reflexivity|].
  set (students := s0 :: students0).
  destruct (existsb has_grades students) eqn:Hex.
  - destruct (find_top_performer_data_some students Hex)
      as (top & avg & Hdata & Hin & _ & Havg & Hmax).
    exists top, avg. split; [exact Hin|]. split; [exact Havg|].
    split; [exact Hmax|].
    unfold find_top_performer. fold students. rewrite Hdata. reflexivity.
  - unfold find_top_performer, find_top_performer_data. fold students.
    apply Lecture3Stats.filter_has_grades_nil in Hex. rewrite Hex. reflexivity.
Qed.

End Session.

(** ** Sessions of the examples *)

Lemma added_student_is_found_witness :
  find_student_by_name (rt := ascii_runtime)
    (roster (add_student (rt := ascii_runtime)
               [{| name := lit "Ann"; grades := [] |}] [lit " John "]))
    (lit "JOHN")
  = Some 1%nat.
Proof.
  apply (added_student_is_found (rt := ascii_runtime)
           [{| name := lit "Ann"; grades := [] |}] (lit " John ") []
           (lit "JOHN")); reflexivity.
Defined.

Lemma add_grades_appends_to_named_student_witness :
  nth_error
    (roster (add_grades (rt := ascii_runtime) roster_80_90
               (lit "BOB" :: [lit "70"; lit "101"] ++ lit "done" :: [lit "3"])))
    1
  = Some {| name := lit "Bob"; grades := [85; 95] ++ [70] |}%float.
Proof.
  apply (add_grades_appends_to_named_student (rt := ascii_runtime)
           roster_80_90 1 {| name := lit "Bob"; grades := [85; 95]%float |}
           (lit "BOB") [lit "70"; lit "101"] (lit "done") [lit "3"]);
    try reflexivity.
  unfold names_distinct. cbn.
  repeat constructor; cbn; intuition discriminate.
Defined.


Lemma main_exits_by_choice_5_or_interrupt_witness :
  ((exists line,
      In line [lit "1"; lit "Ann"; lit "2"; lit "ann"; lit "90"]
      /\ str_strip (rt := ascii_runtime) line = lit "5")
   /\ exists before,
        printed (fst (main_at (rt := ascii_runtime) Interrupt 4
                        [lit "1"; lit "Ann"; lit "2"; lit "ann"; lit "90"]))
        = before
          ++ [lit "Thank you for using Student Grade Analyzer. Goodbye!"])
  \/ (Interrupt = Interrupt
      /\ unread (fst (main_at (rt := ascii_runtime) Interrupt 4
                        [lit "1"; lit "Ann"; lit "2"; lit "ann"; lit "90"]))
         = []
      /\ exists before,
           printed (fst (main_at (rt := ascii_runtime) Interrupt 4
                           [lit "1"; lit "Ann"; lit "2"; lit "ann"; lit "90"]))
           = before ++ [interrupted]).
Proof.
  apply (main_exits_by_choice_5_or_interrupt (rt := ascii_runtime) Interrupt 4
           [lit "1"; lit "Ann"; lit "2"; lit "ann"; lit "90"]).
  reflexivity.
Defined.

Lemma interrupt_ends_main_and_keeps_roster_witness :
  snd (main_at (rt := ascii_runtime) Interrupt 6
         [lit "1"; lit "Ann"; lit "2"; lit "ann"; lit "90"]) = Exited
  /\ roster (fst (main_at (rt := ascii_runtime) Interrupt 6
                    [lit "1"; lit "Ann"; lit "2"; lit "ann"; lit "90"]))
     = roster (fst (main (rt := ascii_runtime) 6
                      [lit "1"; lit "Ann"; lit "2"; lit "ann"; lit "90"])).
Proof.
  apply (interrupt_ends_main_and_keeps_roster (rt := ascii_runtime) 6
           [lit "1"; lit "Ann"; lit "2"; lit "ann"; lit "90"]).
  cbn. lia.
Defined.

Lemma main_roster_settles_witness :
  roster (fst (main (rt := ascii_runtime) 9 [lit "1"; lit "Ann"; lit "7"]))
  = roster (fst (main (rt := ascii_runtime) 3 [lit "1"; lit "Ann"; lit "7"])).
Proof.
  apply (main_roster_settles (rt := ascii_runtime) 9
           [lit "1"; lit "Ann"; lit "7"]).
  cbn. lia.
Defined.

Lemma name_stays_taken_witness :
  roster
    (add_student (rt := ascii_runtime)
       (roster (fst (main_loop (rt := ascii_runtime) 2 roster_80_90 []
                       [lit "1"; lit "Cid"; lit "4"])))
       [lit "ANN"])
  = roster (fst (main_loop (rt := ascii_runtime) 2 roster_80_90 []
                   [lit "1"; lit "Cid"; lit "4"])).
Proof.
  exact (f_equal roster
           (name_stays_taken (rt := ascii_runtime) 2 roster_80_90 []
              [lit "1"; lit "Cid"; lit "4"]
              {| name := lit "Ann"; grades := [80]%float |} (lit "ANN") []
              (or_introl eq_refl) eq_refl)).
Defined.

Lemma reported_averages_are_numbers_witness :
  Forall (fun s =>
            match calculate_average (grades s) with
            | Some avg => PrimFloat.is_nan avg = false /\ grades s <> []
            | None => grades s = []
            end)
         (roster (fst (main (rt := ascii_runtime) 5
                         [lit "1"; lit "Ann"; lit "2"; lit "ann"; lit "90";
                          lit "done"; lit "1"; lit "Bob"]))).
Proof.
  apply (reported_averages_are_numbers (rt := ascii_runtime)). reflexivity.
Defined.

End Lecture3Session.
